(** * Recorder: the capture-and-dual-stream pipeline of [src/App.tsx]

    A shallow embedding of the [App] component of the recorder: the
    PCM conversion and base64 [encode] helper, the two handlers
    [startRecording] and [stopRecording], the callbacks they install
    ([onaudioprocess], [onmessage], [ondataavailable], [onstop], the
    interval callback) and the buttons that invoke them.

    React state, refs and the browser objects the handlers reach are
    fields of one explicit [State]; a handler is a computation in a small
    state-and-exception monad, so that [try { ... } catch] reads as in
    the source and mutations made before a [throw] persist. *)

Set Warnings "-abstract-large-number".
From Stdlib Require Import ZArith String Ascii List Lia Bool.
From stdpp Require Import base option list.
Import ListNotations.
Local Open Scope string_scope.
Local Open Scope Z_scope.

(** ** Numbers and typed arrays *)

(** A JavaScript number as the handler sees it. Every finite [Float32]
    sample is a dyadic rational [m * 2^e]; multiplying it by [32768 = 2^15]
    in double precision is exact, so the product is again a dyadic
    rational and no rounding has to be modelled. *)
Inductive Number : Type :=
| NaN
| Infinity (negative : bool)
| Dyadic (m e : Z).

(** [x * 32768] *)
Definition times32768 (x : Number) : Number :=
  match x with
  | NaN => NaN
  | Infinity s => Infinity s
  | Dyadic m e => Dyadic m (e + 15)
  end.

(** The integral part of [m * 2^e], rounding toward zero. *)
Definition truncate (m e : Z) : Z :=
  if 0 <=? e then m * 2 ^ e else Z.quot m (2 ^ (- e)).

(** ECMAScript [ToInt16], the conversion applied by a store into an
    [Int16Array]: non-finite values become [0]; finite values are
    truncated, reduced modulo [2^16] and read as two's complement. *)
Definition ToInt16 (x : Number) : Z :=
  match x with
  | Dyadic m e =>
      let int16bit := truncate m e mod 65536 in
      if 32768 <=? int16bit then int16bit - 65536 else int16bit
  | _ => 0
  end.

(** The loop [for (i = 0; i < l; i++) int16[i] = inputData[i] * 32768]. *)
Definition float32_to_int16 (inputData : list Number) : list Z :=
  map (fun x => ToInt16 (times32768 x)) inputData.

(** The two bytes of one [Int16Array] element as a byte view of the
    buffer shows them: typed arrays use the byte order of the platform,
    little-endian wherever browsers run, so the low byte comes first. *)
Definition int16_bytes (v : Z) : list Z :=
  let u := v mod 65536 in [u mod 256; u / 256].

(** [new Uint8Array(int16.buffer)] *)
Definition Uint8Array_of_buffer (int16 : list Z) : list Z :=
  flat_map int16_bytes int16.

(** Reading two bytes back as a signed 16-bit integer. *)
Definition int16_of_bytes (lo hi : Z) : Z :=
  let u := lo + 256 * hi in if 32768 <=? u then u - 65536 else u.

(** ** [encode]: bytes to base64 *)

Definition base64_alphabet : list ascii :=
  list_ascii_of_string
    "ABCDEFGHIJKLMNOPQRSTUVWXYZabcdefghijklmnopqrstuvwxyz0123456789+/".

Definition base64_digit (n : Z) : ascii :=
  nth (Z.to_nat n) base64_alphabet "="%char.

(** [String.fromCharCode(bytes[i])] for a [Uint8Array] element. *)
Definition fromCharCode (b : Z) : ascii := ascii_of_nat (Z.to_nat b).

Definition charCode (c : ascii) : Z := Z.of_nat (nat_of_ascii c).

(** [btoa] on the code units of a binary string. *)
Fixpoint btoa_units (units : list Z) : list ascii :=
  match units with
  | a :: b :: c :: rest =>
      base64_digit (a / 4)
      :: base64_digit ((a mod 4) * 16 + b / 16)
      :: base64_digit ((b mod 16) * 4 + c / 64)
      :: base64_digit (c mod 64)
      :: btoa_units rest
  | [a; b] =>
      [base64_digit (a / 4);
       base64_digit ((a mod 4) * 16 + b / 16);
       base64_digit ((b mod 16) * 4);
       "="%char]
  | [a] =>
      [base64_digit (a / 4); base64_digit ((a mod 4) * 16); "="%char; "="%char]
  | [] => []
  end.

Definition btoa (binary : string) : string :=
  string_of_list_ascii (btoa_units (map charCode (list_ascii_of_string binary))).

(** [encode]: the loop appends one character per byte to [binary]. *)
Definition encode (bytes : list Z) : string :=
  let binary := string_of_list_ascii (map fromCharCode bytes) in
  btoa binary.

Local Close Scope Z_scope.

(** ** Data model *)

Inductive SourceMode : Type := mic | system.

Record AudioConstraints : Type := {
  echoCancellation : bool;
  noiseSuppression : bool;
  autoGainControl : bool
}.

Record VideoConstraints : Type := { width : nat; height : nat }.

Inductive CaptureAPI : Type := getDisplayMedia | getUserMedia.

(** One call of [navigator.mediaDevices.getDisplayMedia] or
    [getUserMedia] with its constraints object; [video] is [None] when the
    object has no [video] key. *)
Record CaptureRequest : Type := {
  api : CaptureAPI;
  video : option VideoConstraints;
  audio : AudioConstraints
}.

Inductive TrackKind : Type := AudioTrack | VideoTrack.

Record Track : Type := { kind : TrackKind; ended : bool }.

Record Blob : Type := { blob_bytes : list Z; blob_type : string }.

Definition blob_size (b : Blob) : nat := length (blob_bytes b).

(** [new Blob(parts, { type })] *)
Definition new_Blob (parts : list Blob) (ty : string) : Blob :=
  {| blob_bytes := concat (map blob_bytes parts); blob_type := ty |}.

(** [AudioMetadata] of [./types], by the fields the component writes. *)
Record AudioMetadata : Type := {
  blob : Blob;
  url : nat;
  duration : nat
}.

(** The arguments of one [downloadAudioFile] call. The file name is a
    template over the source label and [formatDuration(recordingTime)];
    [formatDuration] lives in [./utils/fileUtils], so the name is kept as
    the two values the template is filled with. *)
Record Download : Type := {
  file_blob : Blob;
  file_source : SourceMode;
  file_duration : nat
}.

(** The payload of [session.sendRealtimeInput({ media: { data, mimeType } })]. *)
Record RealtimeInput : Type := { data : string; mimeType : string }.

Record Transcription : Type := { text : option string }.
Record ServerContent : Type := { inputTranscription : option Transcription }.
Record LiveServerMessage : Type := { serverContent : option ServerContent }.

(** String concatenation [prev + text] when [text] may be [undefined]. *)
Definition js_string (text : option string) : string :=
  match text with Some s => s | None => "undefined" end.

(** *** Browser and service objects *)

(** The promise returned by [ai.live.connect] together with the session
    it resolves to. [queued] holds the callbacks registered with [then]
    while the promise is pending, in registration order, each
    represented by the message it will send; [wire] is what
    [sendRealtimeInput] has transmitted. *)
Inductive SessionStatus : Type := Connecting | Open | Closed | Failed.

Record LiveSession : Type := {
  status : SessionStatus;
  queued : list RealtimeInput;
  wire : list RealtimeInput
}.

Record AudioContext : Type := {
  ctx_closed : bool;
  (* source -> scriptProcessor -> destination connected, onaudioprocess set *)
  ctx_graph : bool
}.

(** What [mediaRecorder.onstop] closes over: the [recordingTime] and
    [sourceMode] constants of the render whose [startRecording] ran, and
    the local [captureStream]. *)
Record OnStop : Type := {
  captured_recordingTime : nat;
  captured_sourceMode : SourceMode;
  captured_stream : nat
}.

Record MediaRecorder : Type := {
  rec_recording : bool;          (* state = recording; inactive otherwise *)
  rec_stop_pending : bool;       (* stop() was called, stop event not yet fired *)
  rec_ondataavailable : bool;
  rec_onstop : option OnStop
}.

(** *** Component state *)

Record UI : Type := {
  isRecording : bool;
  recordingTime : nat;
  audioData : option AudioMetadata;
  stream : option nat;
  transcribedText : string;
  sourceMode : SourceMode;
  isMobile : bool
}.

Record Refs : Type := {
  mediaRecorderRef : option nat;
  chunksRef : list Blob;
  timerRef : option nat;
  audioCtxRef : option nat;
  wakeLockRef : option nat;
  sessionPromiseRef : option nat
}.

(** Objects are kept in stores and named by their index; a ref or a
    closure holding an object holds its index. *)
Record Browser : Type := {
  streams : list (list Track);
  contexts : list AudioContext;
  recorders : list MediaRecorder;
  timers : list bool;            (* interval still set *)
  wakeLocks : list bool;         (* sentinel still held *)
  sessions : list LiveSession;
  captureRequests : list CaptureRequest;
  objectURLs : nat;
  downloads : list Download;
  alerts : nat
}.

Record State : Type := { ui : UI; refs : Refs; browser : Browser }.

(** What the environment answers to one [startRecording]. *)
Inductive WakeLockOutcome : Type :=
| WakeLockMissing | WakeLockRejected | WakeLockGranted.

Record StartEnv : Type := {
  (* tracks of the stream the capture promise resolves to, None if it rejects *)
  env_capture : option (list TrackKind);
  env_AudioContext : bool;       (* the constructor returns *)
  env_MediaRecorder : bool;      (* the constructor returns *)
  env_recorder_start : bool;     (* start() returns *)
  env_wakeLock : WakeLockOutcome
}.

(** ** Field updates *)

Definition with_isRecording (v : bool) (u : UI) : UI :=
  {| isRecording := v; recordingTime := recordingTime u; audioData := audioData u;
     stream := stream u; transcribedText := transcribedText u;
     sourceMode := sourceMode u; isMobile := isMobile u |}.
Definition with_recordingTime (v : nat) (u : UI) : UI :=
  {| isRecording := isRecording u; recordingTime := v; audioData := audioData u;
     stream := stream u; transcribedText := transcribedText u;
     sourceMode := sourceMode u; isMobile := isMobile u |}.
Definition with_audioData (v : option AudioMetadata) (u : UI) : UI :=
  {| isRecording := isRecording u; recordingTime := recordingTime u; audioData := v;
     stream := stream u; transcribedText := transcribedText u;
     sourceMode := sourceMode u; isMobile := isMobile u |}.
Definition with_stream (v : option nat) (u : UI) : UI :=
  {| isRecording := isRecording u; recordingTime := recordingTime u;
     audioData := audioData u; stream := v; transcribedText := transcribedText u;
     sourceMode := sourceMode u; isMobile := isMobile u |}.
Definition with_transcribedText (v : string) (u : UI) : UI :=
  {| isRecording := isRecording u; recordingTime := recordingTime u;
     audioData := audioData u; stream := stream u; transcribedText := v;
     sourceMode := sourceMode u; isMobile := isMobile u |}.
Definition with_sourceMode (v : SourceMode) (u : UI) : UI :=
  {| isRecording := isRecording u; recordingTime := recordingTime u;
     audioData := audioData u; stream := stream u;
     transcribedText := transcribedText u; sourceMode := v; isMobile := isMobile u |}.

Definition with_mediaRecorderRef (v : option nat) (r : Refs) : Refs :=
  {| mediaRecorderRef := v; chunksRef := chunksRef r; timerRef := timerRef r;
     audioCtxRef := audioCtxRef r; wakeLockRef := wakeLockRef r;
     sessionPromiseRef := sessionPromiseRef r |}.
Definition with_chunksRef (v : list Blob) (r : Refs) : Refs :=
  {| mediaRecorderRef := mediaRecorderRef r; chunksRef := v; timerRef := timerRef r;
     audioCtxRef := audioCtxRef r; wakeLockRef := wakeLockRef r;
     sessionPromiseRef := sessionPromiseRef r |}.
Definition with_timerRef (v : option nat) (r : Refs) : Refs :=
  {| mediaRecorderRef := mediaRecorderRef r; chunksRef := chunksRef r; timerRef := v;
     audioCtxRef := audioCtxRef r; wakeLockRef := wakeLockRef r;
     sessionPromiseRef := sessionPromiseRef r |}.
Definition with_audioCtxRef (v : option nat) (r : Refs) : Refs :=
  {| mediaRecorderRef := mediaRecorderRef r; chunksRef := chunksRef r;
     timerRef := timerRef r; audioCtxRef := v; wakeLockRef := wakeLockRef r;
     sessionPromiseRef := sessionPromiseRef r |}.
Definition with_wakeLockRef (v : option nat) (r : Refs) : Refs :=
  {| mediaRecorderRef := mediaRecorderRef r; chunksRef := chunksRef r;
     timerRef := timerRef r; audioCtxRef := audioCtxRef r; wakeLockRef := v;
     sessionPromiseRef := sessionPromiseRef r |}.
Definition with_sessionPromiseRef (v : option nat) (r : Refs) : Refs :=
  {| mediaRecorderRef := mediaRecorderRef r; chunksRef := chunksRef r;
     timerRef := timerRef r; audioCtxRef := audioCtxRef r;
     wakeLockRef := wakeLockRef r; sessionPromiseRef := v |}.

Definition with_streams (v : list (list Track)) (b : Browser) : Browser :=
  {| streams := v; contexts := contexts b; recorders := recorders b;
     timers := timers b; wakeLocks := wakeLocks b; sessions := sessions b;
     captureRequests := captureRequests b; objectURLs := objectURLs b;
     downloads := downloads b; alerts := alerts b |}.
Definition with_contexts (v : list AudioContext) (b : Browser) : Browser :=
  {| streams := streams b; contexts := v; recorders := recorders b;
     timers := timers b; wakeLocks := wakeLocks b; sessions := sessions b;
     captureRequests := captureRequests b; objectURLs := objectURLs b;
     downloads := downloads b; alerts := alerts b |}.
Definition with_recorders (v : list MediaRecorder) (b : Browser) : Browser :=
  {| streams := streams b; contexts := contexts b; recorders := v;
     timers := timers b; wakeLocks := wakeLocks b; sessions := sessions b;
     captureRequests := captureRequests b; objectURLs := objectURLs b;
     downloads := downloads b; alerts := alerts b |}.
Definition with_timers (v : list bool) (b : Browser) : Browser :=
  {| streams := streams b; contexts := contexts b; recorders := recorders b;
     timers := v; wakeLocks := wakeLocks b; sessions := sessions b;
     captureRequests := captureRequests b; objectURLs := objectURLs b;
     downloads := downloads b; alerts := alerts b |}.
Definition with_wakeLocks (v : list bool) (b : Browser) : Browser :=
  {| streams := streams b; contexts := contexts b; recorders := recorders b;
     timers := timers b; wakeLocks := v; sessions := sessions b;
     captureRequests := captureRequests b; objectURLs := objectURLs b;
     downloads := downloads b; alerts := alerts b |}.
Definition with_sessions (v : list LiveSession) (b : Browser) : Browser :=
  {| streams := streams b; contexts := contexts b; recorders := recorders b;
     timers := timers b; wakeLocks := wakeLocks b; sessions := v;
     captureRequests := captureRequests b; objectURLs := objectURLs b;
     downloads := downloads b; alerts := alerts b |}.
Definition with_captureRequests (v : list CaptureRequest) (b : Browser) : Browser :=
  {| streams := streams b; contexts := contexts b; recorders := recorders b;
     timers := timers b; wakeLocks := wakeLocks b; sessions := sessions b;
     captureRequests := v; objectURLs := objectURLs b;
     downloads := downloads b; alerts := alerts b |}.
Definition with_objectURLs (v : nat) (b : Browser) : Browser :=
  {| streams := streams b; contexts := contexts b; recorders := recorders b;
     timers := timers b; wakeLocks := wakeLocks b; sessions := sessions b;
     captureRequests := captureRequests b; objectURLs := v;
     downloads := downloads b; alerts := alerts b |}.
Definition with_downloads (v : list Download) (b : Browser) : Browser :=
  {| streams := streams b; contexts := contexts b; recorders := recorders b;
     timers := timers b; wakeLocks := wakeLocks b; sessions := sessions b;
     captureRequests := captureRequests b; objectURLs := objectURLs b;
     downloads := v; alerts := alerts b |}.
Definition with_alerts (v : nat) (b : Browser) : Browser :=
  {| streams := streams b; contexts := contexts b; recorders := recorders b;
     timers := timers b; wakeLocks := wakeLocks b; sessions := sessions b;
     captureRequests := captureRequests b; objectURLs := objectURLs b;
     downloads := downloads b; alerts := v |}.

Definition on_ui (f : UI -> UI) (s : State) : State :=
  {| ui := f (ui s); refs := refs s; browser := browser s |}.
Definition on_refs (f : Refs -> Refs) (s : State) : State :=
  {| ui := ui s; refs := f (refs s); browser := browser s |}.
Definition on_browser (f : Browser -> Browser) (s : State) : State :=
  {| ui := ui s; refs := refs s; browser := f (browser s) |}.

(** ** Handlers as computations *)

(** A statement either completes or throws; in both cases the state it
    reached is kept. *)
Inductive Outcome (A : Type) : Type :=
| Returns (a : A)
| Throws.
Arguments Returns {A} a.
Arguments Throws {A}.

Definition M (A : Type) : Type := State -> Outcome A * State.

#[global] Instance M_ret : MRet M := fun A a s => (Returns a, s).
#[global] Instance M_bind : MBind M := fun A B k c s =>
  match c s with
  | (Returns a, s') => k a s'
  | (Throws, s') => (Throws, s')
  end.

Definition throw {A : Type} : M A := fun s => (Throws, s).

(** [try { body } catch (err) { handler }] *)
Definition try_catch (body handler : M unit) : M unit := fun s =>
  match body s with
  | (Returns _, s') => (Returns tt, s')
  | (Throws, s') => handler s'
  end.

Definition modify (f : State -> State) : M unit := fun s => (Returns tt, f s).
Definition gets {A : Type} (f : State -> A) : M A := fun s => (Returns (f s), s).
Definition skip : M unit := mret tt.

(** The state a computation leaves behind. *)
Definition exec {A : Type} (c : M A) (s : State) : State := snd (c s).

(** *** React state setters and ref assignments *)

Definition setIsRecording (v : bool) : M unit := modify (on_ui (with_isRecording v)).
(** [setRecordingTime(f)]; [setRecordingTime(0)] is the constant update. *)
Definition setRecordingTime (f : nat -> nat) : M unit :=
  modify (on_ui (fun u => with_recordingTime (f (recordingTime u)) u)).
Definition setAudioData (v : AudioMetadata) : M unit :=
  modify (on_ui (with_audioData (Some v))).
Definition setStream (v : nat) : M unit := modify (on_ui (with_stream (Some v))).
Definition setTranscribedText (f : string -> string) : M unit :=
  modify (on_ui (fun u => with_transcribedText (f (transcribedText u)) u)).
Definition setSourceMode (v : SourceMode) : M unit :=
  modify (on_ui (with_sourceMode v)).

Definition assign_mediaRecorderRef (v : option nat) : M unit :=
  modify (on_refs (with_mediaRecorderRef v)).
Definition assign_chunksRef (v : list Blob) : M unit :=
  modify (on_refs (with_chunksRef v)).
Definition assign_timerRef (v : option nat) : M unit :=
  modify (on_refs (with_timerRef v)).
Definition assign_audioCtxRef (v : option nat) : M unit :=
  modify (on_refs (with_audioCtxRef v)).
Definition assign_wakeLockRef (v : option nat) : M unit :=
  modify (on_refs (with_wakeLockRef v)).
Definition assign_sessionPromiseRef (v : option nat) : M unit :=
  modify (on_refs (with_sessionPromiseRef v)).

(** *** Calls into the browser and the service *)

(** [await navigator.mediaDevices.getDisplayMedia(...)] or
    [getUserMedia(...)]: the request is issued; a rejected promise throws
    at the [await]. *)
Definition mediaDevices (req : CaptureRequest) (env : StartEnv) : M nat :=
  modify (on_browser (fun b => with_captureRequests (captureRequests b ++ [req]) b)) ;;
  match env_capture env with
  | None => throw
  | Some kinds =>
      id ← gets (fun s => length (streams (browser s)));
      modify (on_browser (fun b =>
        with_streams (streams b ++ [map (fun k => {| kind := k; ended := false |}) kinds]) b)) ;;
      mret id
  end.

(** [ai.live.connect({ ... })]: returns a pending promise at once. *)
Definition live_connect : M nat :=
  id ← gets (fun s => length (sessions (browser s)));
  modify (on_browser (fun b =>
    with_sessions (sessions b ++ [{| status := Connecting; queued := []; wire := [] |}]) b)) ;;
  mret id.

(** [new AudioContext({ sampleRate: 16000 })] *)
Definition new_AudioContext (env : StartEnv) : M nat :=
  if env_AudioContext env then
    id ← gets (fun s => length (contexts (browser s)));
    modify (on_browser (fun b =>
      with_contexts (contexts b ++ [{| ctx_closed := false; ctx_graph := false |}]) b)) ;;
    mret id
  else throw.

Definition has_audio_track (tracks : list Track) : bool :=
  existsb (fun t => match kind t with AudioTrack => true | VideoTrack => false end) tracks.

(** [audioCtx.createMediaStreamSource(captureStream)]: throws when the
    stream has no audio track. *)
Definition createMediaStreamSource (captureStream : nat) : M unit :=
  tracks ← gets (fun s => default [] (streams (browser s) !! captureStream));
  if has_audio_track tracks then skip else throw.

(** [createScriptProcessor(4096, 1, 1)], the assignment of
    [onaudioprocess] and the two [connect] calls. *)
Definition connect_scriptProcessor (audioCtx : nat) : M unit :=
  modify (on_browser (fun b =>
    with_contexts
      (alter (fun c => {| ctx_closed := ctx_closed c; ctx_graph := true |}) audioCtx (contexts b)) b)).

(** [audioCtxRef.current.close()] *)
Definition AudioContext_close (audioCtx : nat) : M unit :=
  modify (on_browser (fun b =>
    with_contexts
      (alter (fun c => {| ctx_closed := true; ctx_graph := ctx_graph c |}) audioCtx (contexts b)) b)).

(** [new MediaRecorder(captureStream)] *)
Definition new_MediaRecorder (env : StartEnv) : M nat :=
  if env_MediaRecorder env then
    id ← gets (fun s => length (recorders (browser s)));
    modify (on_browser (fun b =>
      with_recorders
        (recorders b ++ [{| rec_recording := false; rec_stop_pending := false;
                            rec_ondataavailable := false; rec_onstop := None |}]) b)) ;;
    mret id
  else throw.

(** The assignments to [ondataavailable] and [onstop]. *)
Definition MediaRecorder_handlers (mediaRecorder : nat) (c : OnStop) : M unit :=
  modify (on_browser (fun b =>
    with_recorders
      (alter (fun r => {| rec_recording := rec_recording r;
                          rec_stop_pending := rec_stop_pending r;
                          rec_ondataavailable := true; rec_onstop := Some c |})
             mediaRecorder (recorders b)) b)).

(** [mediaRecorder.start()] *)
Definition MediaRecorder_start (env : StartEnv) (mediaRecorder : nat) : M unit :=
  if env_recorder_start env then
    modify (on_browser (fun b =>
      with_recorders
        (alter (fun r => {| rec_recording := true; rec_stop_pending := rec_stop_pending r;
                            rec_ondataavailable := rec_ondataavailable r;
                            rec_onstop := rec_onstop r |})
               mediaRecorder (recorders b)) b))
  else throw.

(** [mediaRecorder.stop()]: on an inactive recorder the call returns
    without effect; otherwise the recorder becomes inactive and the
    browser will fire [dataavailable] and then [stop]. *)
Definition MediaRecorder_stop (mediaRecorder : nat) : M unit :=
  modify (on_browser (fun b =>
    with_recorders
      (alter (fun r => if rec_recording r
                       then {| rec_recording := false; rec_stop_pending := true;
                               rec_ondataavailable := rec_ondataavailable r;
                               rec_onstop := rec_onstop r |}
                       else r)
             mediaRecorder (recorders b)) b)).

(** [window.setInterval(callback, 1000)]; the handle is never [0], so the
    truthiness test on [timerRef.current] is a test for [null]. *)
Definition setInterval : M nat :=
  id ← gets (fun s => length (timers (browser s)));
  modify (on_browser (fun b => with_timers (timers b ++ [true]) b)) ;;
  mret id.

Definition clearInterval (timer : nat) : M unit :=
  modify (on_browser (fun b => with_timers (<[timer := false]> (timers b)) b)).

(** [wakeLockRef.current.release()] *)
Definition WakeLock_release (lock : nat) : M unit :=
  modify (on_browser (fun b => with_wakeLocks (<[lock := false]> (wakeLocks b)) b)).

Definition alert : M unit :=
  modify (on_browser (fun b => with_alerts (S (alerts b)) b)).

(** [URL.createObjectURL(blob)] *)
Definition createObjectURL : M nat :=
  id ← gets (fun s => objectURLs (browser s));
  modify (on_browser (with_objectURLs (S id))) ;;
  mret id.

Definition downloadAudioFile (d : Download) : M unit :=
  modify (on_browser (fun b => with_downloads (downloads b ++ [d]) b)).

(** [captureStream.getTracks().forEach(t => t.stop())] *)
Definition stop_tracks (captureStream : nat) : M unit :=
  modify (on_browser (fun b =>
    with_streams
      (alter (map (fun t => {| kind := kind t; ended := true |})) captureStream (streams b)) b)).

(** [promise.then(session => session.sendRealtimeInput(msg))]: while the
    promise is pending the callback is queued behind the earlier ones; on
    a fulfilled promise it runs before any later event and sends, unless
    the socket has closed; on a rejected promise it never runs. *)
Definition promise_then (sessionPromise : nat) (msg : RealtimeInput) : M unit :=
  modify (on_browser (fun b =>
    with_sessions
      (alter (fun p =>
                match status p with
                | Connecting => {| status := Connecting; queued := queued p ++ [msg]; wire := wire p |}
                | Open => {| status := Open; queued := queued p; wire := wire p ++ [msg] |}
                | Closed | Failed => p
                end) sessionPromise (sessions b)) b)).

(** ** The component *)

(** [requestWakeLock]: without the API nothing happens; a rejected
    request is caught and logged inside the function. *)
Definition requestWakeLock (env : StartEnv) : M unit :=
  match env_wakeLock env with
  | WakeLockMissing => skip
  | WakeLockRejected => skip
  | WakeLockGranted =>
      id ← gets (fun s => length (wakeLocks (browser s)));
      modify (on_browser (fun b => with_wakeLocks (wakeLocks b ++ [true]) b)) ;;
      assign_wakeLockRef (Some id)
  end.

(** [stopRecording], a [useCallback] over [isRecording]: the flag it
    tests is the one of the render that created it. *)
Definition stopRecording (render : UI) : M unit :=
  if isRecording render then
    (r ← gets (fun s => mediaRecorderRef (refs s));
     match r with
     | Some mediaRecorder => MediaRecorder_stop mediaRecorder
     | None => skip
     end) ;;
    (c ← gets (fun s => audioCtxRef (refs s));
     match c with
     | Some audioCtx => AudioContext_close audioCtx ;; assign_audioCtxRef None
     | None => skip
     end) ;;
    setIsRecording false ;;
    (w ← gets (fun s => wakeLockRef (refs s));
     match w with
     | Some lock => WakeLock_release lock ;; assign_wakeLockRef None
     | None => skip
     end) ;;
    (t ← gets (fun s => timerRef (refs s));
     match t with
     | Some timer => clearInterval timer ;; assign_timerRef None
     | None => skip
     end) ;;
    assign_sessionPromiseRef None
  else skip.

(** The constraints object [startRecording] passes for a source mode. *)
Definition capture_request (mode : SourceMode) : CaptureRequest :=
  match mode with
  | system =>
      {| api := getDisplayMedia;
         video := Some {| width := 1; height := 1 |};
         audio := {| echoCancellation := false; noiseSuppression := false;
                     autoGainControl := false |} |}
  | mic =>
      {| api := getUserMedia;
         video := None;
         audio := {| echoCancellation := true; noiseSuppression := true;
                     autoGainControl := true |} |}
  end.

(** [startRecording]: [render] is the render whose closure runs, so
    [sourceMode render] and [recordingTime render] are the constants the
    body and the callbacks it creates refer to. The two [await]s are
    answered by [env] without other events in between. *)
Definition startRecording (render : UI) (env : StartEnv) : M unit :=
  try_catch
    (captureStream ← mediaDevices (capture_request (sourceMode render)) env;
     setStream captureStream ;;
     setTranscribedText (fun _ => "") ;;
     setRecordingTime (fun _ => 0) ;;
     sessionPromise ← live_connect;
     assign_sessionPromiseRef (Some sessionPromise) ;;
     audioCtx ← new_AudioContext env;
     assign_audioCtxRef (Some audioCtx) ;;
     createMediaStreamSource captureStream ;;
     connect_scriptProcessor audioCtx ;;
     mediaRecorder ← new_MediaRecorder env;
     assign_mediaRecorderRef (Some mediaRecorder) ;;
     assign_chunksRef [] ;;
     MediaRecorder_handlers mediaRecorder
       {| captured_recordingTime := recordingTime render;
          captured_sourceMode := sourceMode render;
          captured_stream := captureStream |} ;;
     MediaRecorder_start env mediaRecorder ;;
     setIsRecording true ;;
     requestWakeLock env ;;
     timer ← setInterval;
     assign_timerRef (Some timer))
    alert.

(** *** Callbacks *)

(** [scriptProcessor.onaudioprocess] *)
Definition frame_message (inputData : list Number) : RealtimeInput :=
  let int16 := float32_to_int16 inputData in
  let base64Data := encode (Uint8Array_of_buffer int16) in
  {| data := base64Data; mimeType := "audio/pcm;rate=16000" |}.

Definition onaudioprocess (inputData : list Number) : M unit :=
  let msg := frame_message inputData in
  p ← gets (fun s => sessionPromiseRef (refs s));
  match p with
  | Some sessionPromise => promise_then sessionPromise msg
  | None => skip
  end.

(** [callbacks.onmessage] *)
Definition onmessage (message : LiveServerMessage) : M unit :=
  match serverContent message with
  | Some content =>
      match inputTranscription content with
      | Some transcription =>
          setTranscribedText (fun prev => prev ++ js_string (text transcription))
      | None => skip
      end
  | None => skip
  end.

(** [mediaRecorder.ondataavailable] *)
Definition ondataavailable (e_data : Blob) : M unit :=
  if Nat.ltb 0 (blob_size e_data)
  then chunks ← gets (fun s => chunksRef (refs s)); assign_chunksRef (chunks ++ [e_data])
  else skip.

(** [mediaRecorder.onstop] *)
Definition onstop (c : OnStop) : M unit :=
  chunks ← gets (fun s => chunksRef (refs s));
  let blob := new_Blob chunks "audio/mp3" in
  url ← createObjectURL;
  setAudioData {| blob := blob; url := url; duration := captured_recordingTime c |} ;;
  downloadAudioFile {| file_blob := blob; file_source := captured_sourceMode c;
                       file_duration := captured_recordingTime c |} ;;
  stop_tracks (captured_stream c).

(** The interval callback. *)
Definition interval_callback : M unit := setRecordingTime S.

(** *** Buttons *)

Record Button : Type := { disabled : bool; onClick : M unit }.

Definition micButton (render : UI) : option Button :=
  Some {| disabled := isRecording render; onClick := setSourceMode mic |}.

(** Rendered only when [!isMobile]. *)
Definition systemButton (render : UI) : option Button :=
  if isMobile render then None
  else Some {| disabled := isRecording render; onClick := setSourceMode system |}.

Definition recordButton (render : UI) (env : StartEnv) : option Button :=
  Some {| disabled := false;
          onClick := if isRecording render then stopRecording render
                     else startRecording render env |}.

(** A click reaches [onClick] only on a rendered, enabled button. *)
Definition click (b : option Button) : M unit :=
  match b with
  | Some b => if disabled b then skip else onClick b
  | None => skip
  end.

(** ** Events *)

Inductive Event : Type :=
| ClickMic
| ClickSystem
| ClickRecord (env : StartEnv)
| TimerFired (timer : nat)
| AudioProcess (audioCtx : nat) (inputData : list Number)
| ConnectResolved (session : nat)
| ConnectRejected (session : nat)
| SessionClosed (session : nat)
| ServerMessage (session : nat) (message : LiveServerMessage)
| DataAvailable (mediaRecorder : nat) (e_data : Blob)
| RecorderStopped (mediaRecorder : nat).

(** The graph of a context delivers buffers while it is connected and
    the context is not closed. *)
Definition ctx_delivers (s : State) (audioCtx : nat) : bool :=
  match contexts (browser s) !! audioCtx with
  | Some c => negb (ctx_closed c) && ctx_graph c
  | None => false
  end.

Definition session_status (s : State) (session : nat) : option SessionStatus :=
  status <$> sessions (browser s) !! session.

(** The promise settles once: fulfilment runs the queued callbacks in
    order, rejection discards them. *)
Definition settle (fulfilled : bool) (session : nat) : M unit :=
  modify (on_browser (fun b =>
    with_sessions
      (alter (fun p =>
                match status p with
                | Connecting =>
                    if fulfilled
                    then {| status := Open; queued := []; wire := wire p ++ queued p |}
                    else {| status := Failed; queued := []; wire := wire p |}
                | _ => p
                end) session (sessions b)) b)).

Definition close_session (session : nat) : M unit :=
  modify (on_browser (fun b =>
    with_sessions
      (alter (fun p =>
                match status p with
                | Open => {| status := Closed; queued := queued p; wire := wire p |}
                | _ => p
                end) session (sessions b)) b)).

Definition fire_stop (mediaRecorder : nat) : M unit :=
  r ← gets (fun s => recorders (browser s) !! mediaRecorder);
  match r with
  | Some r =>
      if rec_stop_pending r then
        modify (on_browser (fun b =>
          with_recorders
            (alter (fun r => {| rec_recording := rec_recording r; rec_stop_pending := false;
                                rec_ondataavailable := rec_ondataavailable r;
                                rec_onstop := rec_onstop r |})
                   mediaRecorder (recorders b)) b)) ;;
        match rec_onstop r with Some c => onstop c | None => skip end
      else skip
  | None => skip
  end.

(** One event of the page: the handler it reaches, run on the current
    render. *)
Definition dispatch (e : Event) : M unit :=
  render ← gets ui;
  match e with
  | ClickMic => click (micButton render)
  | ClickSystem => click (systemButton render)
  | ClickRecord env => click (recordButton render env)
  | TimerFired timer =>
      active ← gets (fun s => timers (browser s) !! timer);
      if decide (active = Some true) then interval_callback else skip
  | AudioProcess audioCtx inputData =>
      live ← gets (fun s => ctx_delivers s audioCtx);
      if live : bool then onaudioprocess inputData else skip
  | ConnectResolved session => settle true session
  | ConnectRejected session => settle false session
  | SessionClosed session => close_session session
  | ServerMessage session message =>
      st ← gets (fun s => session_status s session);
      match st with Some Open => onmessage message | _ => skip end
  | DataAvailable mediaRecorder e_data =>
      r ← gets (fun s => recorders (browser s) !! mediaRecorder);
      match r with
      | Some r =>
          if (rec_recording r || rec_stop_pending r) && rec_ondataavailable r
          then ondataavailable e_data else skip
      | None => skip
      end
  | RecorderStopped mediaRecorder => fire_stop mediaRecorder
  end.

Definition step (e : Event) (s : State) : State := exec (dispatch e) s.

Definition run (events : list Event) (s : State) : State :=
  fold_left (fun s e => step e s) events s.

(** The component after mounting. *)
Definition initial (mobile : bool) : State :=
  {| ui := {| isRecording := false; recordingTime := 0; audioData := None;
              stream := None; transcribedText := ""; sourceMode := mic;
              isMobile := mobile |};
     refs := {| mediaRecorderRef := None; chunksRef := []; timerRef := None;
                audioCtxRef := None; wakeLockRef := None; sessionPromiseRef := None |};
     browser := {| streams := []; contexts := []; recorders := []; timers := [];
                   wakeLocks := []; sessions := []; captureRequests := [];
                   objectURLs := 0; downloads := []; alerts := 0 |} |}.

(** ** Observations used in the statements *)

(** The fragment [onmessage] is handed by a server message, if the
    message carries an input transcription. *)
Definition delta_text (message : LiveServerMessage) : option string :=
  match serverContent message with
  | Some content =>
      match inputTranscription content with
      | Some transcription => Some (js_string (text transcription))
      | None => None
      end
  | None => None
  end.

(** The transcript delta that event [e] delivers in state [s]: the
    service delivers messages on open sessions only. *)
Definition delivered_delta (e : Event) (s : State) : list string :=
  match e with
  | ServerMessage session message =>
      match session_status s session with
      | Some Open => option_list (delta_text message)
      | _ => []
      end
  | _ => []
  end.

(** The deltas received over a sequence of events, in arrival order. *)
Fixpoint deltas_received (events : list Event) (s : State) : list string :=
  match events with
  | [] => []
  | e :: rest => delivered_delta e s ++ deltas_received rest (step e s)
  end.

Definition join (fragments : list string) : string :=
  fold_right append "" fragments.

(** The event is a click that starts a capture whose stream is granted. *)
Definition starts_capture (e : Event) (s : State) : bool :=
  match e with
  | ClickRecord env => negb (isRecording (ui s)) && bool_decide (env_capture env <> None)
  | _ => false
  end.

Definition is_record_click (e : Event) : bool :=
  match e with ClickRecord _ => true | _ => false end.

(** The event fulfils the connection promise of the given session. *)
Definition resolves (session : nat) (e : Event) : bool :=
  match e with ConnectResolved x => Nat.eqb x session | _ => false end.

(** The event rejects the connection or closes the session. *)
Definition drops (session : nat) (e : Event) : bool :=
  match e with
  | ConnectRejected x | SessionClosed x => Nat.eqb x session
  | _ => false
  end.

(** Events of one recording on [session]: no click on the record button,
    and the connection is not lost. *)
Definition keeps_session (session : nat) (e : Event) : bool :=
  negb (is_record_click e) && negb (drops session e).

(** The same while the connection is still being established. *)
Definition during_recording (session : nat) (e : Event) : bool :=
  keeps_session session e && negb (resolves session e).

(** The sample buffers for which [onaudioprocess] runs, in order:
    those of the contexts that deliver in [s]. *)
Definition frame_of (s : State) (e : Event) : list (list Number) :=
  match e with
  | AudioProcess audioCtx inputData =>
      if ctx_delivers s audioCtx then [inputData] else []
  | _ => []
  end.

Definition frames_produced (s : State) (events : list Event) : list (list Number) :=
  flat_map (frame_of s) events.

(** Everything handed to a session so far: sent, then still queued. *)
Definition forwarded (p : LiveSession) : list RealtimeInput := wire p ++ queued p.

(** The stream still has a track that was not stopped. *)
Definition stream_live (s : State) (captureStream : nat) : bool :=
  match streams (browser s) !! captureStream with
  | Some tracks => existsb (fun t => negb (ended t)) tracks
  | None => false
  end.

(** The wrap-around of a 16-bit store: the value congruent to [n] modulo
    [2^16] in the signed range. *)
Definition wrap16 (n : Z) : Z := ((n + 32768) mod 65536 - 32768)%Z.

(** *** The effect of [stopRecording] in closed form *)

Definition on_ref {A : Type} (f : nat -> A -> A) (r : option nat) (x : A) : A :=
  match r with Some i => f i x | None => x end.

Definition recorder_stopped (r : MediaRecorder) : MediaRecorder :=
  if rec_recording r
  then {| rec_recording := false; rec_stop_pending := true;
          rec_ondataavailable := rec_ondataavailable r; rec_onstop := rec_onstop r |}
  else r.

Definition context_closed (c : AudioContext) : AudioContext :=
  {| ctx_closed := true; ctx_graph := ctx_graph c |}.

(** The state [stopRecording] leaves when its closure saw
    [isRecording = true]; [stopRecording_exec] relates it to the handler. *)
Definition stopped (s : State) : State :=
  {| ui := with_isRecording false (ui s);
     refs := {| mediaRecorderRef := mediaRecorderRef (refs s);
                chunksRef := chunksRef (refs s);
                timerRef := None; audioCtxRef := None; wakeLockRef := None;
                sessionPromiseRef := None |};
     browser :=
       with_recorders
         (on_ref (alter recorder_stopped) (mediaRecorderRef (refs s)) (recorders (browser s)))
       (with_contexts
         (on_ref (alter context_closed) (audioCtxRef (refs s)) (contexts (browser s)))
       (with_wakeLocks
         (on_ref (fun i => <[i := false]>) (wakeLockRef (refs s)) (wakeLocks (browser s)))
       (with_timers
         (on_ref (fun i => <[i := false]>) (timerRef (refs s)) (timers (browser s)))
         (browser s)))) |}.

(** *** Sessions *)

Definition fresh_session : LiveSession :=
  {| status := Connecting; queued := []; wire := [] |}.

(** A session whose promise is pending has sent nothing; an open one
    has nothing queued. *)
Definition tidy (p : LiveSession) : Prop :=
  (status p = Connecting /\ wire p = []) \/ (status p = Open /\ queued p = []).

Definition is_open (p : LiveSession) : bool :=
  match status p with Open => true | _ => false end.

(** *** Sample inputs *)

(** Every call of [startRecording] succeeds: a microphone stream with one
    audio track, and a wake lock. *)
Definition env_granted : StartEnv :=
  {| env_capture := Some [AudioTrack]; env_AudioContext := true;
     env_MediaRecorder := true; env_recorder_start := true;
     env_wakeLock := WakeLockGranted |}.

(** The user shares a screen or tab without its audio: the display
    stream has a video track only. *)
Definition env_screen_without_audio : StartEnv :=
  {| env_capture := Some [VideoTrack]; env_AudioContext := true;
     env_MediaRecorder := true; env_recorder_start := true;
     env_wakeLock := WakeLockGranted |}.

(** The capture prompt is dismissed. *)
Definition env_denied : StartEnv :=
  {| env_capture := None; env_AudioContext := true;
     env_MediaRecorder := true; env_recorder_start := true;
     env_wakeLock := WakeLockGranted |}.

Definition silence : list Number := [Dyadic 0 0; Dyadic 0 0].
Definition ramp : list Number := [Dyadic 1 (-1); Dyadic 1 0].

Definition delta (t : string) : LiveServerMessage :=
  {| serverContent := Some {| inputTranscription := Some {| text := Some t |} |} |}.

(** ** Further observations *)

(** The clock tick event [e] delivers in state [s]: the interval
    callback runs for a timer that is still set. *)
Definition tick_of (s : State) (e : Event) : nat :=
  match e with
  | TimerFired timer =>
      if decide (timers (browser s) !! timer = Some true) then 1 else 0
  | _ => 0
  end.

Definition ticks_delivered (s : State) (events : list Event) : nat :=
  list_sum (map (tick_of s) events).





Definition no_click (e : Event) : bool := negb (is_record_click e).


(** The same environment with another answer to the wake lock request. *)
Definition with_env_wakeLock (w : WakeLockOutcome) (env : StartEnv) : StartEnv :=
  {| env_capture := env_capture env; env_AudioContext := env_AudioContext env;
     env_MediaRecorder := env_MediaRecorder env;
     env_recorder_start := env_recorder_start env; env_wakeLock := w |}.

(** The state without its wake locks. *)
Definition forget_wakeLock (s : State) : State :=
  on_refs (with_wakeLockRef None) (on_browser (with_wakeLocks []) s).




(** The [MediaRecorder] constructor throws: the stream, the session
    and the audio graph are already set up. *)
Definition env_without_recorder : StartEnv :=
  {| env_capture := Some [AudioTrack]; env_AudioContext := true;
     env_MediaRecorder := false; env_recorder_start := true;
     env_wakeLock := WakeLockGranted |}.

(** The service closes the given session. *)
Definition closes (session : nat) (e : Event) : bool :=
  match e with SessionClosed x => Nat.eqb x session | _ => false end.

(** *** Reading a frame back *)

(** The values a [Uint8Array] holds. *)
Definition is_byte (b : Z) : Prop := (0 <= b < 256)%Z.

(** The position of a character in the base64 alphabet. *)
Fixpoint index_of (c : ascii) (l : list ascii) : nat :=
  match l with
  | [] => 0
  | x :: rest => if Ascii.eqb x c then 0 else S (index_of c rest)
  end.

Definition base64_value (c : ascii) : Z := Z.of_nat (index_of c base64_alphabet).

(** The inverse of [btoa_units], as a receiver of the frames computes it. *)
Fixpoint atob_units (cs : list ascii) : list Z :=
  match cs with
  | c0 :: c1 :: c2 :: c3 :: rest =>
      let v0 := base64_value c0 in
      let v1 := base64_value c1 in
      let v2 := base64_value c2 in
      let v3 := base64_value c3 in
      if Ascii.eqb c2 "="%char then [v0 * 4 + v1 / 16]%Z
      else if Ascii.eqb c3 "="%char
           then [v0 * 4 + v1 / 16; (v1 mod 16) * 16 + v2 / 4]%Z
           else (v0 * 4 + v1 / 16)%Z :: ((v1 mod 16) * 16 + v2 / 4)%Z
                :: ((v2 mod 4) * 64 + v3)%Z :: atob_units rest
  | _ => []
  end.

(** The [Int16Array] behind a byte view. *)
Fixpoint Int16Array_of_bytes (bytes : list Z) : list Z :=
  match bytes with
  | lo :: hi :: rest => int16_of_bytes lo hi :: Int16Array_of_bytes rest
  | _ => []
  end.

Definition is_base64_char (c : ascii) : Prop := In c base64_alphabet \/ c = "="%char.

(** ** The text download *)

(** [String.prototype.trim] on a transcript held as UTF-8 bytes: it
    removes the ECMAScript white space and line terminator code points
    from both ends. The one-byte ones are TAB, LF, VT, FF, CR and SP. *)
Definition is_space1 (c : ascii) : bool :=
  let n := nat_of_ascii c in
  (Nat.leb 9 n && Nat.leb n 13) || Nat.eqb n 32.

(** U+00A0, as [C2 A0]. *)
Definition is_space2 (c1 c2 : ascii) : bool :=
  Nat.eqb (nat_of_ascii c1) 194 && Nat.eqb (nat_of_ascii c2) 160.

(** U+1680, U+2000 to U+200A, U+2028, U+2029, U+202F, U+205F, U+3000 and
    U+FEFF, each three bytes long. *)
Definition is_space3 (c1 c2 c3 : ascii) : bool :=
  let a := nat_of_ascii c1 in
  let b := nat_of_ascii c2 in
  let c := nat_of_ascii c3 in
  (Nat.eqb a 225 && Nat.eqb b 154 && Nat.eqb c 128)
  || (Nat.eqb a 226 && Nat.eqb b 128
      && ((Nat.leb 128 c && Nat.leb c 138) || Nat.eqb c 168 || Nat.eqb c 169
          || Nat.eqb c 175))
  || (Nat.eqb a 226 && Nat.eqb b 129 && Nat.eqb c 159)
  || (Nat.eqb a 227 && Nat.eqb b 128 && Nat.eqb c 128)
  || (Nat.eqb a 239 && Nat.eqb b 187 && Nat.eqb c 191).

Fixpoint trimStart (s : list ascii) : list ascii :=
  match s with
  | [] => []
  | c1 :: r1 =>
      if is_space1 c1 then trimStart r1
      else match r1 with
           | [] => s
           | c2 :: r2 =>
               if is_space2 c1 c2 then trimStart r2
               else match r2 with
                    | [] => s
                    | c3 :: r3 => if is_space3 c1 c2 c3 then trimStart r3 else s
                    end
           end
  end.

(** The same from the end, on the reversed bytes. *)
Fixpoint trimEnd_rev (s : list ascii) : list ascii :=
  match s with
  | [] => []
  | c1 :: r1 =>
      if is_space1 c1 then trimEnd_rev r1
      else match r1 with
           | [] => s
           | c2 :: r2 =>
               if is_space2 c2 c1 then trimEnd_rev r2
               else match r2 with
                    | [] => s
                    | c3 :: r3 => if is_space3 c3 c2 c1 then trimEnd_rev r3 else s
                    end
           end
  end.

Definition trim (s : string) : string :=
  string_of_list_ascii
    (rev (trimEnd_rev (rev (trimStart (list_ascii_of_string s))))).

(** The arguments of one [downloadTextFile] call: the content, and the
    [recordingTime] the file name is formatted from. *)
Record TextDownload : Type := { text_content : string; text_duration : nat }.

(** [handleDownloadText]: what it hands to [downloadTextFile], if
    anything. It writes no state. *)
Definition handleDownloadText (render : UI) : option TextDownload :=
  if String.eqb (transcribedText render) "" then None
  else Some {| text_content := trim (transcribedText render);
               text_duration := recordingTime render |}.

(** The save button: [disabled={!transcribedText || isRecording}]. *)
Definition textButton_disabled (render : UI) : bool :=
  String.eqb (transcribedText render) "" || isRecording render.

Definition click_textButton (s : State) : option TextDownload :=
  if textButton_disabled (ui s) then None else handleDownloadText (ui s).

(** ** Mobile detection *)

Definition upper (c : ascii) : ascii :=
  let n := nat_of_ascii c in
  if Nat.leb 97 n && Nat.leb n 122 then ascii_of_nat (n - 32) else c.

(** The pattern matches at the head of the text, letter case ignored. *)
Fixpoint prefix_ci (pattern text : list ascii) : bool :=
  match pattern, text with
  | [], _ => true
  | _ :: _, [] => false
  | p :: pattern', t :: text' =>
      Ascii.eqb (upper p) (upper t) && prefix_ci pattern' text'
  end.

(** The pattern matches somewhere in the text. *)
Fixpoint search_ci (pattern text : list ascii) : bool :=
  prefix_ci pattern text
  || match text with
     | [] => false
     | _ :: text' => search_ci pattern text'
     end.

(** [/iPhone|iPad|iPod|Android/i.test(userAgent)] *)
Definition mobile_test (userAgent : string) : bool :=
  let ua := list_ascii_of_string userAgent in
  search_ci (list_ascii_of_string "iPhone") ua
  || search_ci (list_ascii_of_string "iPad") ua
  || search_ci (list_ascii_of_string "iPod") ua
  || search_ci (list_ascii_of_string "Android") ua.

(** The component once its mount effect has run [setIsMobile]. *)
Definition mounted (userAgent : string) : State := initial (mobile_test userAgent).

(** ** Proof automation *)

Arguments has_audio_track : simpl never.

Ltac handlers :=
  cbv [step exec dispatch click micButton systemButton recordButton
       stopRecording startRecording onaudioprocess onmessage ondataavailable onstop
       interval_callback fire_stop settle close_session promise_then
       requestWakeLock mediaDevices live_connect new_AudioContext createMediaStreamSource
       connect_scriptProcessor AudioContext_close new_MediaRecorder MediaRecorder_handlers
       MediaRecorder_start MediaRecorder_stop setInterval clearInterval WakeLock_release
       alert createObjectURL downloadAudioFile stop_tracks
       setIsRecording setRecordingTime setAudioData setStream setTranscribedText setSourceMode
       assign_mediaRecorderRef assign_chunksRef assign_timerRef assign_audioCtxRef
       assign_wakeLockRef assign_sessionPromiseRef
       mbind mret M_bind M_ret modify gets skip throw try_catch disabled onClick].

Ltac split_state s :=
  destruct s as [[? ? ? ? ? ? ?] [? ? ? ? ? ?] [? ? ? ? ? ? ? ? ? ?]].

Ltac fields :=
  cbv [on_ui on_refs on_browser
       with_isRecording with_recordingTime with_audioData with_stream
       with_transcribedText with_sourceMode
       with_mediaRecorderRef with_chunksRef with_timerRef with_audioCtxRef
       with_wakeLockRef with_sessionPromiseRef
       with_streams with_contexts with_recorders with_timers with_wakeLocks
       with_sessions with_captureRequests with_objectURLs with_downloads with_alerts];
  cbn.

(** Case analysis on whatever a handler branches on. *)
Ltac cases :=
  repeat (cbn in *; rewrite ?list_lookup_middle by reflexivity;
          match goal with
          | |- context [match ?x with _ => _ end] => is_var x; destruct x
          | |- context [match ?l !! ?i with _ => _ end] => destruct (l !! i) eqn:?
          | |- context [match decide ?P with _ => _ end] => destruct (decide P)
          | |- context [match has_audio_track ?t with _ => _ end] =>
              destruct (has_audio_track t) eqn:?
          | |- context [match ?f ?x with _ => _ end] => is_var x; destruct (f x) eqn:?
          | |- context [if ?c then _ else _] => destruct c eqn:?
          end);
  cbn in *.

Local Open Scope list_scope.

(** ** The helpers *)

Example encode_Man : encode [77; 97; 110]%Z = "TWFu".
Proof. reflexivity. Qed.

Example encode_padding : encode [77; 97]%Z = "TWE=" /\ encode [77]%Z = "TQ==".
Proof. split; reflexivity. Qed.

Example encode_high_bytes : encode [0; 128; 255; 255]%Z = "AID//w==".
Proof. reflexivity. Qed.

Lemma alter_snoc {A : Type} (f : A -> A) (l : list A) (x : A) :
  alter f (length l) (l ++ [x]) = l ++ [f x].
Proof.
  replace (length l) with (length l + 0) by lia.
  rewrite alter_app_r. reflexivity.
Qed.

Lemma lookup_map {A B : Type} (f : A -> B) (l : list A) (i : nat) :
  map f l !! i = f <$> l !! i.
Proof. revert i. induction l as [|x l IH]; intros [|i]; cbn; auto. Qed.

Lemma append_empty_r (s : string) : (s ++ "")%string = s.
Proof. induction s; simpl; congruence. Qed.

Lemma append_assoc (a b c : string) :
  ((a ++ b) ++ c)%string = (a ++ (b ++ c))%string.
Proof. induction a; cbn; congruence. Qed.

Lemma join_app (l1 l2 : list string) :
  join (l1 ++ l2) = (join l1 ++ join l2)%string.
Proof.
  unfold join. induction l1 as [|x l1 IH]; cbn; [reflexivity|].
  rewrite IH, append_assoc. reflexivity.
Qed.

Lemma run_cons (e : Event) (events : list Event) (s : State) :
  run (e :: events) s = run events (step e s).
Proof. reflexivity. Qed.

(** ** [startRecording] and [stopRecording] *)

(** What a successful [startRecording] leaves behind. The recorder's
    [onstop] holds the [recordingTime] of the state the button was
    clicked in. *)
Lemma startRecording_success (s : State) (env : StartEnv) :
  isRecording (ui s) = false ->
  let s1 := step (ClickRecord env) s in
  isRecording (ui s1) = true ->
  (transcribedText (ui s1) = "" /\ recordingTime (ui s1) = 0
   /\ sourceMode (ui s1) = sourceMode (ui s)) /\
  (sessionPromiseRef (refs s1) = Some (length (sessions (browser s))) /\
   sessions (browser s1) = sessions (browser s) ++ [fresh_session]) /\
  (audioCtxRef (refs s1) = Some (length (contexts (browser s))) /\
   contexts (browser s1) =
     contexts (browser s) ++ [{| ctx_closed := false; ctx_graph := true |}]) /\
  (mediaRecorderRef (refs s1) = Some (length (recorders (browser s))) /\
   chunksRef (refs s1) = [] /\
   recorders (browser s1) =
     recorders (browser s) ++
       [{| rec_recording := true; rec_stop_pending := false;
           rec_ondataavailable := true;
           rec_onstop := Some {| captured_recordingTime := recordingTime (ui s);
                                 captured_sourceMode := sourceMode (ui s);
                                 captured_stream := length (streams (browser s)) |} |}]) /\
  (timerRef (refs s1) = Some (length (timers (browser s))) /\
   timers (browser s1) = timers (browser s) ++ [true]) /\
  (audioData (ui s1) = audioData (ui s) /\
   downloads (browser s1) = downloads (browser s) /\
   objectURLs (browser s1) = objectURLs (browser s)).
Proof.
  split_state s. destruct env as [? ? ? ? ?]. cbn. intros ->.
  handlers. cases; try discriminate; intros _.
  all: repeat split; rewrite ?alter_snoc; reflexivity.
Qed.

(** A rejected capture request changes nothing but the request log
    and the alert. *)
Lemma capture_failure_is_clean (s : State) (env : StartEnv) :
  isRecording (ui s) = false ->
  env_capture env = None ->
  step (ClickRecord env) s =
  on_browser (fun b =>
    with_alerts (S (alerts b))
      (with_captureRequests
         (captureRequests b ++ [capture_request (sourceMode (ui s))]) b)) s.
Proof.
  intros Hidle Hcap. split_state s. destruct env as [? ? ? ? ?]. cbn in *. subst.
  handlers. cbn. reflexivity.
Qed.

(** A start that fails after the stream was granted. *)
Lemma failed_start_state (s : State) (env : StartEnv) (kinds : list TrackKind) :
  isRecording (ui s) = false ->
  env_capture env = Some kinds ->
  let s1 := step (ClickRecord env) s in
  isRecording (ui s1) = false ->
  alerts (browser s1) = S (alerts (browser s)) /\
  streams (browser s1) =
    streams (browser s) ++ [map (fun k => {| kind := k; ended := false |}) kinds] /\
  sessions (browser s1) = sessions (browser s) ++ [fresh_session] /\
  sessionPromiseRef (refs s1) = Some (length (sessions (browser s))).
Proof.
  intros Hidle Hcap. split_state s. destruct env as [? ? ? ? ?]. cbn in Hidle, Hcap. subst.
  handlers. cases; try discriminate; intros _; fields; auto.
Qed.

Lemma failed_start_keeps_stream
    (s : State) (env : StartEnv) (k : TrackKind) (kinds : list TrackKind) :
  isRecording (ui s) = false ->
  env_capture env = Some (k :: kinds) ->
  let s1 := step (ClickRecord env) s in
  isRecording (ui s1) = false ->
  alerts (browser s1) = S (alerts (browser s)) /\
  stream_live s1 (length (streams (browser s))) = true /\
  session_status s1 (length (sessions (browser s))) = Some Connecting /\
  sessionPromiseRef (refs s1) = Some (length (sessions (browser s))).
Proof.
  intros Hidle Hcap s1 Hfail.
  destruct (failed_start_state s env _ Hidle Hcap Hfail) as (Ha & Hs & Hp & Hr).
  fold s1 in Ha, Hs, Hp, Hr. unfold stream_live, session_status.
  rewrite Hs, Hp, !list_lookup_middle by reflexivity. auto.
Qed.

Lemma stopRecording_exec (render : UI) (s : State) :
  exec (stopRecording render) s = if isRecording render then stopped s else s.
Proof.
  unfold stopRecording. destruct (isRecording render); [|reflexivity].
  split_state s. handlers. cases; reflexivity.
Qed.

Lemma recorder_stopped_twice (r : MediaRecorder) :
  recorder_stopped (recorder_stopped r) = recorder_stopped r.
Proof.
  unfold recorder_stopped.
  destruct (rec_recording r) eqn:E; cbn; rewrite ?E; reflexivity.
Qed.

Lemma stopped_twice (s : State) : stopped (stopped s) = stopped s.
Proof.
  split_state s. unfold stopped. cbn.
  destruct mediaRecorderRef0; cbn; [|reflexivity].
  rewrite list_alter_alter_eq.
  erewrite list_alter_ext; [reflexivity| |reflexivity].
  intros r _. apply recorder_stopped_twice.
Qed.

Lemma stopRecording_twice (render : UI) (s : State) :
  exec (stopRecording render) (exec (stopRecording render) s) =
  exec (stopRecording render) s.
Proof.
  rewrite !stopRecording_exec. destruct (isRecording render); [|reflexivity].
  apply stopped_twice.
Qed.

Lemma stopRecording_idle (render : UI) (s : State) :
  isRecording render = false -> exec (stopRecording render) s = s.
Proof. intros H. unfold stopRecording. rewrite H. reflexivity. Qed.

Lemma stopRecording_isRecording (render : UI) (s : State) :
  isRecording render = true -> isRecording (ui (exec (stopRecording render) s)) = false.
Proof. intros H. rewrite stopRecording_exec, H. reflexivity. Qed.

(** The record button of a recording component runs [stopRecording]. *)
Lemma click_while_recording (env : StartEnv) (s : State) :
  isRecording (ui s) = true -> step (ClickRecord env) s = stopped s.
Proof.
  intros H.
  assert (Hstop : exec (stopRecording (ui s)) s = stopped s)
    by (rewrite stopRecording_exec, H; reflexivity).
  rewrite <- Hstop.
  cbv [step exec dispatch click recordButton mbind mret M_bind M_ret gets disabled onClick].
  cbn. rewrite H. reflexivity.
Qed.

(** ** The archived artifact *)

Lemma step_TimerFired (timer : nat) (s : State) :
  timers (browser s) !! timer = Some true ->
  step (TimerFired timer) s =
  on_ui (fun u => with_recordingTime (S (recordingTime u)) u) s.
Proof.
  intros H. split_state s. cbn in H. handlers. cbn. rewrite H.
  destruct (decide (Some true = Some true)); [reflexivity|congruence].
Qed.

Lemma run_ticks (timer n : nat) (s : State) :
  timers (browser s) !! timer = Some true ->
  run (repeat (TimerFired timer) n) s =
  on_ui (fun u => with_recordingTime (n + recordingTime u) u) s.
Proof.
  revert s. induction n as [|n IH]; intros s H.
  - split_state s. reflexivity.
  - cbn [repeat]. rewrite run_cons, step_TimerFired by assumption.
    rewrite IH by (split_state s; exact H).
    split_state s. cbv [on_ui with_recordingTime]. cbn. do 3 f_equal. lia.
Qed.

Lemma step_RecorderStopped
    (mediaRecorder : nat) (s : State) (r : MediaRecorder) (c : OnStop) :
  recorders (browser s) !! mediaRecorder = Some r ->
  rec_stop_pending r = true ->
  rec_onstop r = Some c ->
  let s' := step (RecorderStopped mediaRecorder) s in
  let blob := new_Blob (chunksRef (refs s)) "audio/mp3" in
  audioData (ui s') =
    Some {| blob := blob; url := objectURLs (browser s);
            duration := captured_recordingTime c |} /\
  downloads (browser s') =
    downloads (browser s) ++
      [{| file_blob := blob; file_source := captured_sourceMode c;
          file_duration := captured_recordingTime c |}] /\
  recordingTime (ui s') = recordingTime (ui s) /\
  isRecording (ui s') = isRecording (ui s).
Proof.
  intros Hr Hp Hc. split_state s. cbn in Hr. handlers. cbn. rewrite Hr, Hp, Hc.
  cbn. repeat split; reflexivity.
Qed.

(** For every recording, whatever its length [n]: one artifact is
    produced, and the duration written into it (and into the file name)
    is the [recordingTime] that was displayed when the record button was
    clicked, the value [onstop] closed over, while the elapsed time at
    stop is [n]. *)
Lemma artifact_duration_is_render_time
    (s0 : State) (env env' : StartEnv) (n : nat) :
  isRecording (ui s0) = false ->
  let s1 := step (ClickRecord env) s0 in
  isRecording (ui s1) = true ->
  let timer := length (timers (browser s0)) in
  let mediaRecorder := length (recorders (browser s0)) in
  let s2 := run (repeat (TimerFired timer) n) s1 in
  let s4 := run [ClickRecord env'; RecorderStopped mediaRecorder] s2 in
  recordingTime (ui s2) = n /\
  recordingTime (ui s4) = n /\
  duration <$> audioData (ui s4) = Some (recordingTime (ui s0)) /\
  length (downloads (browser s4)) = S (length (downloads (browser s0))) /\
  file_duration <$> last (downloads (browser s4)) = Some (recordingTime (ui s0)).
Proof.
  intros Hidle s1 Hrec timer mediaRecorder s2 s4.
  destruct (startRecording_success s0 env Hidle Hrec)
    as ((_ & Htime & _) & _ & _ & (Hmr & _ & Hrecs) & (_ & Htimers) & (_ & Hdl & _)).
  fold s1 in Htime, Hmr, Hrecs, Htimers, Hdl.
  assert (Hs2 : s2 = on_ui (fun u => with_recordingTime (n + recordingTime u) u) s1).
  { apply run_ticks. rewrite Htimers. apply list_lookup_middle. reflexivity. }
  assert (Ht2 : recordingTime (ui s2) = n) by (rewrite Hs2; cbn; lia).
  assert (Hrec2 : isRecording (ui s2) = true) by (rewrite Hs2; exact Hrec).
  unfold s4. cbn [run fold_left]. rewrite (click_while_recording env' s2 Hrec2).
  set (r := {| rec_recording := false; rec_stop_pending := true;
               rec_ondataavailable := true;
               rec_onstop := Some {| captured_recordingTime := recordingTime (ui s0);
                                     captured_sourceMode := sourceMode (ui s0);
                                     captured_stream := length (streams (browser s0)) |} |}).
  assert (Hlk : recorders (browser (stopped s2)) !! mediaRecorder = Some r).
  { rewrite Hs2. cbn. rewrite Hmr, Hrecs. cbn. unfold mediaRecorder.
    rewrite alter_snoc. apply list_lookup_middle. reflexivity. }
  destruct (step_RecorderStopped mediaRecorder (stopped s2) r _ Hlk eq_refl eq_refl)
    as (Ha & Hd & Ht & _).
  rewrite Ha, Hd, Ht. cbn. rewrite Hs2. cbn. rewrite Hdl.
  repeat split; try lia.
  - rewrite length_app. cbn. lia.
  - rewrite last_snoc. reflexivity.
Qed.

(** C1, evaluated on the code: a first recording of three ticks is
    stopped with elapsed time 3 and produces exactly one artifact, whose
    duration is 0; a second recording of two ticks then produces one more
    artifact, whose duration is 3, the time left on display by the first.
    The claim asks for 3 and 2. *)
Theorem artifact_duration_after_three_ticks :
  let first := [ClickRecord env_granted; TimerFired 0; TimerFired 0; TimerFired 0;
                ClickRecord env_granted; RecorderStopped 0] in
  let second := [ClickRecord env_granted; TimerFired 1; TimerFired 1;
                 ClickRecord env_granted; RecorderStopped 1] in
  let s := run first (initial false) in
  let s' := run second s in
  (isRecording (ui s) = false /\
   recordingTime (ui s) = 3 /\
   file_duration <$> downloads (browser s) = [0] /\
   duration <$> audioData (ui s) = Some 0) /\
  (isRecording (ui s') = false /\
   recordingTime (ui s') = 2 /\
   file_duration <$> downloads (browser s') = [0; 3] /\
   duration <$> audioData (ui s') = Some 3).
Proof. cbn zeta. repeat split; reflexivity. Qed.

(** ** Failure of [startRecording] *)

(** C3, evaluated on the code: in system mode the user shares a screen
    without audio, so [createMediaStreamSource] throws after the stream
    was granted. The error is surfaced and the component is idle, yet
    the granted stream is still live, a session connect was attempted
    and its promise is held, an audio context is open and held; the
    record button now offers start, and [stopRecording] releases none of
    it. The claim asks for the stream to be released first. When the
    capture request itself is rejected, nothing is acquired. *)
Theorem start_failure_leaks_stream :
  let s := run [ClickSystem; ClickRecord env_screen_without_audio] (initial false) in
  let s' := run [ClickSystem; ClickRecord env_denied] (initial false) in
  (isRecording (ui s) = false /\
   alerts (browser s) = 1 /\
   captureRequests (browser s) = [capture_request system] /\
   stream (ui s) = Some 0 /\
   stream_live s 0 = true /\
   sessionPromiseRef (refs s) = Some 0 /\
   session_status s 0 = Some Connecting /\
   audioCtxRef (refs s) = Some 0 /\
   contexts (browser s) = [{| ctx_closed := false; ctx_graph := false |}] /\
   exec (stopRecording (ui s)) s = s) /\
  (isRecording (ui s') = false /\
   alerts (browser s') = 1 /\
   streams (browser s') = [] /\
   sessions (browser s') = [] /\
   contexts (browser s') = [] /\
   refs s' = refs (initial false)).
Proof. cbn zeta. repeat split; reflexivity. Qed.

(** ** Stopping twice *)

(** C4: [stopRecording] is idempotent. Called while idle it changes
    nothing; the same closure called twice in a row leaves the state of
    the first call, in every component (React state, refs, browser
    objects, downloads); so does a second call made after the re-render
    that followed the first; and after the record button stopped a
    recording, a further [stopRecording], from the new render or from
    the old one, changes nothing. *)
Theorem stop_idempotent (s : State) :
  (isRecording (ui s) = false -> exec (stopRecording (ui s)) s = s) /\
  (forall render,
     exec (stopRecording render) (exec (stopRecording render) s) =
     exec (stopRecording render) s) /\
  (let s' := exec (stopRecording (ui s)) s in
   exec (stopRecording (ui s')) s' = s') /\
  (forall env, let s' := step (ClickRecord env) s in
     isRecording (ui s) = true ->
     exec (stopRecording (ui s')) s' = s' /\ exec (stopRecording (ui s)) s' = s').
Proof.
  split; [apply stopRecording_idle|].
  split; [intros; apply stopRecording_twice|].
  split.
  - cbn. destruct (isRecording (ui s)) eqn:H.
    + apply stopRecording_idle, stopRecording_isRecording, H.
    + rewrite (stopRecording_idle (ui s) s H). apply stopRecording_idle, H.
  - intros env s' H.
    assert (Hs' : s' = exec (stopRecording (ui s)) s).
    { unfold s'. rewrite (click_while_recording env s H), stopRecording_exec, H.
      reflexivity. }
    rewrite Hs'. split.
    + apply stopRecording_idle, stopRecording_isRecording, H.
    + apply stopRecording_twice.
Qed.

(** An idle component, and one stopped by the record button after a tick. *)
Lemma stop_idempotent_witness :
  let idle := initial false in
  let recording := run [ClickRecord env_granted; TimerFired 0] idle in
  let s' := step (ClickRecord env_granted) recording in
  (isRecording (ui idle) = false /\ exec (stopRecording (ui idle)) idle = idle) /\
  (isRecording (ui recording) = true /\
   exec (stopRecording (ui s')) s' = s' /\
   exec (stopRecording (ui recording)) s' = s').
Proof.
  cbn zeta. split; (split; [reflexivity|]).
  - destruct (stop_idempotent (initial false)) as (Hidle & _).
    apply Hidle. reflexivity.
  - destruct (stop_idempotent (run [ClickRecord env_granted; TimerFired 0] (initial false)))
      as (_ & _ & _ & Hclick).
    apply (Hclick env_granted). reflexivity.
Defined.

(** ** Source mode *)

(** C8: a click on start issues exactly one capture request, fixed by
    the source mode: for [mic], [getUserMedia] with audio only and echo
    cancellation, noise suppression and automatic gain control enabled;
    for [system], [getDisplayMedia] with a 1x1 video track and the three
    audio constraints disabled. *)
Theorem capture_request_by_mode (s : State) (env : StartEnv) :
  isRecording (ui s) = false ->
  exists req,
    captureRequests (browser (step (ClickRecord env) s)) =
      captureRequests (browser s) ++ [req] /\
    match sourceMode (ui s) with
    | mic =>
        req = {| api := getUserMedia; video := None;
                 audio := {| echoCancellation := true; noiseSuppression := true;
                             autoGainControl := true |} |}
    | system =>
        req = {| api := getDisplayMedia; video := Some {| width := 1; height := 1 |};
                 audio := {| echoCancellation := false; noiseSuppression := false;
                             autoGainControl := false |} |}
    end.
Proof.
  intros H. exists (capture_request (sourceMode (ui s))). split.
  - split_state s. cbn in H. subst. destruct env as [? ? ? ? ?].
    handlers. cases; reflexivity.
  - destruct (sourceMode (ui s)); reflexivity.
Qed.

(** System mode selected on the desktop, then a click on start. *)
Lemma capture_request_by_mode_witness :
  let s := step ClickSystem (initial false) in
  isRecording (ui s) = false /\
  exists req,
    captureRequests (browser (step (ClickRecord env_granted) s)) = [] ++ [req] /\
    req = {| api := getDisplayMedia; video := Some {| width := 1; height := 1 |};
             audio := {| echoCancellation := false; noiseSuppression := false;
                         autoGainControl := false |} |}.
Proof.
  cbn zeta. split; [reflexivity|].
  exact (capture_request_by_mode (step ClickSystem (initial false)) env_granted eq_refl).
Defined.




(** ** Frames on their way to the session *)

(** An event that produces no frame and does not end the session leaves
    the promise ref, the contexts and the session as they are. *)
Lemma step_keeps_session (sid : nat) (e : Event) (s : State) :
  during_recording sid e = true ->
  frame_of s e = [] ->
  sessionPromiseRef (refs (step e s)) = sessionPromiseRef (refs s) /\
  contexts (browser (step e s)) = contexts (browser s) /\
  sessions (browser (step e s)) !! sid = sessions (browser s) !! sid.
Proof.
  intros He Hf.
  destruct e as [| |[? ? ? ? ?]| |audioCtx inputData|x|x|x| | |]; try discriminate He.
  4: { unfold frame_of in Hf. cbv [step exec dispatch mbind mret M_bind M_ret gets].
       destruct (ctx_delivers s audioCtx); [discriminate|]. cbn. auto. }
  4-6: assert (x <> sid) by
      (cbv [during_recording keeps_session is_record_click drops resolves] in He;
       cbn in He; destruct (Nat.eqb_spec x sid); [discriminate|assumption]).
  all: clear He Hf; split_state s; handlers; cases; repeat split; try reflexivity.
  all: apply list_lookup_alter_ne; assumption.
Qed.

(** While the promise is pending a frame is queued behind the earlier
    ones; once the session is open it is sent at once. *)
Lemma step_during_recording (sid : nat) (e : Event) (s : State) (p : LiveSession) :
  during_recording sid e = true ->
  sessionPromiseRef (refs s) = Some sid ->
  sessions (browser s) !! sid = Some p ->
  sessionPromiseRef (refs (step e s)) = Some sid /\
  contexts (browser (step e s)) = contexts (browser s) /\
  exists p', sessions (browser (step e s)) !! sid = Some p' /\
    status p' = status p /\
    match status p with
    | Connecting =>
        wire p' = wire p /\ queued p' = queued p ++ map frame_message (frame_of s e)
    | Open =>
        queued p' = queued p /\ wire p' = wire p ++ map frame_message (frame_of s e)
    | _ => True
    end.
Proof.
  intros He Href Hp.
  destruct (frame_of s e) as [|inputData rest] eqn:Hf.
  - destruct (step_keeps_session sid e s He Hf) as (-> & -> & ->).
    repeat split; try assumption. exists p. cbn. rewrite !app_nil_r.
    destruct (status p); auto.
  - destruct e as [| | | |audioCtx inputData'| | | | | |]; try discriminate Hf.
    unfold frame_of in Hf. cbv [step exec dispatch mbind mret M_bind M_ret gets].
    destruct (ctx_delivers s audioCtx); [|discriminate Hf].
    injection Hf as -> <-. cbn.
    unfold onaudioprocess. cbv [mbind mret M_bind M_ret gets]. rewrite Href.
    split_state s. cbn in *. repeat split; try assumption.
    rewrite list_lookup_alter_eq, Hp. cbn. eexists; split; [reflexivity|].
    destruct (status p) eqn:Hst; cbn; rewrite ?Hst; auto.
Qed.

(** Fulfilment runs the queued callbacks in registration order. *)
Lemma step_resolve (sid : nat) (s : State) (p : LiveSession) :
  sessions (browser s) !! sid = Some p ->
  tidy p ->
  sessionPromiseRef (refs (step (ConnectResolved sid) s)) = sessionPromiseRef (refs s) /\
  contexts (browser (step (ConnectResolved sid) s)) = contexts (browser s) /\
  exists p', sessions (browser (step (ConnectResolved sid) s)) !! sid = Some p' /\
    status p' = Open /\ queued p' = [] /\ wire p' = forwarded p.
Proof.
  intros Hp Ht. split_state s. handlers. cbn in *. repeat split.
  rewrite list_lookup_alter_eq, Hp. cbn. eexists; split; [reflexivity|].
  unfold forwarded.
  destruct Ht as [[Hs Hw]|[Hs Hq]]; rewrite Hs; cbn; rewrite ?Hq, ?app_nil_r; auto.
Qed.

Lemma step_forwarded (sid : nat) (e : Event) (s : State) (p : LiveSession) :
  keeps_session sid e = true ->
  sessionPromiseRef (refs s) = Some sid ->
  sessions (browser s) !! sid = Some p ->
  tidy p ->
  sessionPromiseRef (refs (step e s)) = Some sid /\
  contexts (browser (step e s)) = contexts (browser s) /\
  exists p', sessions (browser (step e s)) !! sid = Some p' /\
    tidy p' /\
    is_open p' = is_open p || resolves sid e /\
    forwarded p' = forwarded p ++ map frame_message (frame_of s e).
Proof.
  intros He Href Hp Ht.
  destruct (resolves sid e) eqn:Hr.
  - destruct e; try discriminate Hr. cbn in Hr. apply Nat.eqb_eq in Hr. subst session.
    destruct (step_resolve sid s p Hp Ht) as (Hr' & -> & p' & Hp' & Hst & Hq & Hw).
    rewrite Hr'. repeat split; try assumption.
    exists p'. repeat split; try assumption.
    + right. auto.
    + unfold is_open. rewrite Hst. rewrite orb_true_r. reflexivity.
    + unfold forwarded at 1. rewrite Hq, Hw. cbn. rewrite !app_nil_r. reflexivity.
  - assert (Hd : during_recording sid e = true).
    { unfold during_recording. rewrite He, Hr. reflexivity. }
    destruct (step_during_recording sid e s p Hd Href Hp) as (-> & -> & p' & Hp' & Hst & Hm).
    repeat split. exists p'. split; [assumption|].
    unfold tidy, is_open, forwarded in *. rewrite Hst, orb_false_r.
    destruct Ht as [[Hs Hw]|[Hs Hq]]; rewrite Hs in *; destruct Hm as [H1 H2].
    + rewrite H1, H2, Hw. repeat split; auto.
    + rewrite H1, H2, Hq, !app_nil_r. repeat split; auto.
Qed.

Lemma frames_produced_contexts (s s' : State) (events : list Event) :
  contexts (browser s') = contexts (browser s) ->
  frames_produced s' events = frames_produced s events.
Proof.
  intros H. unfold frames_produced. induction events as [|e events IH]; [reflexivity|].
  cbn. rewrite IH. f_equal.
  destruct e; try reflexivity. unfold frame_of, ctx_delivers. rewrite H. reflexivity.
Qed.

(** The invariant of a recording: what the session was handed is the
    list of frames produced, in production order. *)
Lemma run_keeps_session (sid : nat) (events : list Event) :
  forall (s : State) (p : LiveSession),
    forallb (keeps_session sid) events = true ->
    sessionPromiseRef (refs s) = Some sid ->
    sessions (browser s) !! sid = Some p ->
    tidy p ->
    exists p', sessions (browser (run events s)) !! sid = Some p' /\
      tidy p' /\
      is_open p' = is_open p || existsb (resolves sid) events /\
      forwarded p' = forwarded p ++ map frame_message (frames_produced s events).
Proof.
  induction events as [|e events IH]; intros s p Hall Href Hp Ht.
  - exists p. cbn. rewrite orb_false_r, app_nil_r. auto.
  - cbn in Hall. apply andb_true_iff in Hall as [He Hall].
    destruct (step_forwarded sid e s p He Href Hp Ht)
      as (Href1 & Hctx & p1 & Hp1 & Ht1 & Hopen1 & Hfw1).
    destruct (IH (step e s) p1 Hall Href1 Hp1 Ht1) as (p' & Hp' & Ht' & Hopen' & Hfw').
    exists p'. rewrite run_cons. repeat split; try assumption.
    + rewrite Hopen', Hopen1. cbn. rewrite orb_assoc. reflexivity.
    + rewrite Hfw', Hfw1, (frames_produced_contexts s (step e s) events Hctx).
      unfold frames_produced. cbn. rewrite map_app, app_assoc. reflexivity.
Qed.

Lemma tidy_connecting (p : LiveSession) :
  tidy p -> is_open p = false ->
  status p = Connecting /\ wire p = [] /\ queued p = forwarded p.
Proof.
  unfold tidy, is_open, forwarded.
  intros [[Hs Hw]|[Hs Hq]] Ho; rewrite Hs in Ho; [|discriminate].
  rewrite Hw. auto.
Qed.

Lemma tidy_open (p : LiveSession) :
  tidy p -> is_open p = true ->
  status p = Open /\ queued p = [] /\ wire p = forwarded p.
Proof.
  unfold tidy, is_open, forwarded.
  intros [[Hs Hw]|[Hs Hq]] Ho; rewrite Hs in Ho; [discriminate|].
  rewrite Hq, app_nil_r. auto.
Qed.

Lemma during_recording_keeps (sid : nat) (events : list Event) :
  forallb (during_recording sid) events = true ->
  forallb (keeps_session sid) events = true /\ existsb (resolves sid) events = false.
Proof.
  induction events as [|e events IH]; cbn; [auto|].
  intros H. apply andb_true_iff in H as [He H]. destruct (IH H) as [-> ->].
  unfold during_recording in He. apply andb_true_iff in He as [-> Hr].
  apply negb_true_iff in Hr. rewrite Hr. auto.
Qed.

Lemma started_session (s0 : State) (env : StartEnv) :
  isRecording (ui s0) = false ->
  let s1 := step (ClickRecord env) s0 in
  let sid := length (sessions (browser s0)) in
  isRecording (ui s1) = true ->
  sessionPromiseRef (refs s1) = Some sid /\
  sessions (browser s1) !! sid = Some fresh_session /\
  tidy fresh_session.
Proof.
  intros Hidle s1 sid Hrec.
  destruct (startRecording_success s0 env Hidle Hrec) as (_ & (Href & Hs) & _).
  fold s1 in Href, Hs. split; [exact Href|]. split.
  - rewrite Hs. apply list_lookup_middle. reflexivity.
  - left. auto.
Qed.

(** C2: in every recording, the frames produced while the session is
    still connecting are not sent and not lost: they wait, in production
    order, in the promise's callback queue; once the connection
    completes, the wire carries all of them followed by the frames
    produced afterwards, in production order, and nothing is left
    queued. *)
Theorem early_frames_sent_in_order
    (s0 : State) (env : StartEnv) (pre post : list Event) :
  isRecording (ui s0) = false ->
  let s1 := step (ClickRecord env) s0 in
  let sid := length (sessions (browser s0)) in
  isRecording (ui s1) = true ->
  forallb (during_recording sid) pre = true ->
  forallb (keeps_session sid) post = true ->
  (exists p, sessions (browser (run pre s1)) !! sid = Some p /\
     status p = Connecting /\ wire p = [] /\
     queued p = map frame_message (frames_produced s1 pre)) /\
  (exists p,
     sessions (browser (run (pre ++ ConnectResolved sid :: post) s1)) !! sid = Some p /\
     status p = Open /\ queued p = [] /\
     wire p = map frame_message (frames_produced s1 pre ++ frames_produced s1 post)).
Proof.
  intros Hidle s1 sid Hrec Hpre Hpost.
  destruct (started_session s0 env Hidle Hrec) as (Href & Hp & Ht).
  fold s1 sid in Href, Hp.
  destruct (during_recording_keeps sid pre Hpre) as [Hkeep Hnores].
  split.
  - destruct (run_keeps_session sid pre s1 _ Hkeep Href Hp Ht)
      as (p & Hlk & Htp & Hopen & Hfw).
    rewrite Hnores in Hopen. cbn in Hopen.
    destruct (tidy_connecting p Htp Hopen) as (Hs & Hw & Hq).
    exists p. rewrite Hq, Hfw. auto.
  - assert (Hall : forallb (keeps_session sid) (pre ++ ConnectResolved sid :: post) = true).
    { rewrite forallb_app, Hkeep. cbn. rewrite Hpost.
      unfold keeps_session. cbn. reflexivity. }
    destruct (run_keeps_session sid _ s1 _ Hall Href Hp Ht)
      as (p & Hlk & Htp & Hopen & Hfw).
    rewrite existsb_app in Hopen. cbn in Hopen. rewrite Nat.eqb_refl in Hopen.
    cbn in Hopen. rewrite orb_true_r in Hopen.
    destruct (tidy_open p Htp Hopen) as (Hs & Hq & Hw).
    exists p. rewrite Hw, Hfw. repeat split; try assumption.
    unfold frames_produced. rewrite flat_map_app. cbn. reflexivity.
Qed.

(** Two frames before the connection completes and one after it. *)
Lemma early_frames_sent_in_order_witness :
  let s0 := initial false in
  let s1 := step (ClickRecord env_granted) s0 in
  let pre := [AudioProcess 0 ramp; TimerFired 0; AudioProcess 0 silence] in
  let post := [ServerMessage 0 (delta "a"); AudioProcess 0 ramp] in
  isRecording (ui s0) = false /\
  isRecording (ui s1) = true /\
  forallb (during_recording 0) pre = true /\
  forallb (keeps_session 0) post = true /\
  exists p,
    sessions (browser (run (pre ++ ConnectResolved 0 :: post) s1)) !! 0 = Some p /\
    wire p = map frame_message [ramp; silence; ramp].
Proof.
  cbn zeta. do 4 (split; [reflexivity|]).
  destruct (early_frames_sent_in_order (initial false) env_granted
              [AudioProcess 0 ramp; TimerFired 0; AudioProcess 0 silence]
              [ServerMessage 0 (delta "a"); AudioProcess 0 ramp]
              eq_refl eq_refl eq_refl eq_refl) as (_ & p & Hp & _ & _ & Hw).
  exists p. split; [exact Hp|exact Hw].
Defined.

(** C6, refuted as stated: two buffers with the same samples are
    forwarded as the same message, so nothing that can be read off a
    forwarded message increases from the first to the second: the
    messages carry no sequence number. *)
Lemma equal_frames_are_indistinguishable :
  let s := run [ClickRecord env_granted; ConnectResolved 0;
                AudioProcess 0 silence; AudioProcess 0 silence] (initial false) in
  exists w, wire <$> sessions (browser s) !! 0 = Some w /\
    length w = 2 /\
    ~ exists seq : RealtimeInput -> nat,
        forall i a b, w !! i = Some a -> w !! (S i) = Some b -> seq a < seq b.
Proof.
  eexists. split; [vm_compute; reflexivity|]. split; [reflexivity|].
  intros [seq H]. specialize (H 0 _ _ eq_refl eq_refl). lia.
Qed.

(** C6, amended: a forwarded frame is the pair of the base64 payload and
    the constant mime type, without a tag; within a session the frames
    are handed over in production order without gaps, so the [i]-th
    message handed to the session (sent, or still queued behind the
    sent ones) is the message of the [i]-th frame produced: the position
    is the only sequence number. *)
Theorem frames_forwarded_untagged_in_order
    (s0 : State) (env : StartEnv) (events : list Event) :
  isRecording (ui s0) = false ->
  let s1 := step (ClickRecord env) s0 in
  let sid := length (sessions (browser s0)) in
  isRecording (ui s1) = true ->
  forallb (keeps_session sid) events = true ->
  exists p, sessions (browser (run events s1)) !! sid = Some p /\
    forwarded p = map frame_message (frames_produced s1 events) /\
    (forall i m, forwarded p !! i = Some m ->
       exists inputData, frames_produced s1 events !! i = Some inputData /\
         m = {| data := encode (Uint8Array_of_buffer (float32_to_int16 inputData));
                mimeType := "audio/pcm;rate=16000" |}).
Proof.
  intros Hidle s1 sid Hrec Hall.
  destruct (started_session s0 env Hidle Hrec) as (Href & Hp & Ht).
  fold s1 sid in Href, Hp.
  destruct (run_keeps_session sid events s1 _ Hall Href Hp Ht)
    as (p & Hlk & _ & _ & Hfw).
  cbn in Hfw. exists p. split; [assumption|]. split; [assumption|].
  intros i m Hm. rewrite Hfw, lookup_map in Hm.
  destruct (frames_produced s1 events !! i) as [inputData|]; [|discriminate].
  exists inputData. split; [reflexivity|]. cbn in Hm. injection Hm as <-. reflexivity.
Qed.

(** One frame queued, one sent directly. *)
Lemma frames_forwarded_untagged_in_order_witness :
  let s0 := initial false in
  let s1 := step (ClickRecord env_granted) s0 in
  let events := [AudioProcess 0 ramp; ConnectResolved 0; AudioProcess 0 silence] in
  isRecording (ui s0) = false /\
  isRecording (ui s1) = true /\
  forallb (keeps_session 0) events = true /\
  exists p, sessions (browser (run events s1)) !! 0 = Some p /\
    forwarded p = map frame_message [ramp; silence].
Proof.
  cbn zeta. do 3 (split; [reflexivity|]).
  destruct (frames_forwarded_untagged_in_order (initial false) env_granted
              [AudioProcess 0 ramp; ConnectResolved 0; AudioProcess 0 silence]
              eq_refl eq_refl eq_refl) as (p & Hp & Hfw & _).
  exists p. split; [exact Hp|exact Hfw].
Defined.

(** ** The transcript *)

(** Every event either clears the transcript, which only a click that
    starts a granted capture does, or appends the delta it delivers. *)
Lemma step_transcribedText (e : Event) (s : State) :
  transcribedText (ui (step e s)) =
  if starts_capture e s then ""
  else (transcribedText (ui s) ++ join (delivered_delta e s))%string.
Proof.
  destruct e as [| |[? ? ? ? ?]| | | | | |session message| |].
  9: {
    cbv [step exec dispatch mbind mret M_bind M_ret gets delivered_delta starts_capture].
    destruct (session_status s session) as [[]|]; cbn; rewrite ?append_empty_r;
      try reflexivity.
    unfold onmessage, delta_text.
    destruct (serverContent message) as [content|]; cbn; rewrite ?append_empty_r;
      try reflexivity.
    destruct (inputTranscription content) as [transcription|]; cbn;
      rewrite ?append_empty_r; reflexivity. }
  all: split_state s; handlers; cases; rewrite ?append_empty_r; reflexivity.
Qed.

Lemma not_click_no_start (e : Event) (s : State) :
  is_record_click e = false -> starts_capture e s = false.
Proof. destruct e; cbn; congruence. Qed.

Lemma run_transcribedText (events : list Event) :
  forall s : State,
    forallb (fun e => negb (is_record_click e)) events = true ->
    transcribedText (ui (run events s)) =
    (transcribedText (ui s) ++ join (deltas_received events s))%string.
Proof.
  induction events as [|e events IH]; intros s Hall; cbn [deltas_received].
  - cbn. rewrite append_empty_r. reflexivity.
  - cbn in Hall. apply andb_true_iff in Hall as [He Hall]. apply negb_true_iff in He.
    rewrite run_cons, (IH _ Hall), step_transcribedText, (not_click_no_start e s He).
    rewrite join_app, append_assoc. reflexivity.
Qed.



(** C10: [stopRecording] leaves every session as it was, open sessions
    open with their callbacks, and leaves the transcript as it was; it
    only sets the promise ref to null. So a delta arriving on an open
    session after the stop is appended, and until the next click on the
    record button the transcript keeps growing by the deltas received. *)
Theorem stop_leaves_session_listening (render : UI) (s : State) :
  let s' := exec (stopRecording render) s in
  sessions (browser s') = sessions (browser s) /\
  transcribedText (ui s') = transcribedText (ui s) /\
  (isRecording render = true -> sessionPromiseRef (refs s') = None) /\
  (forall session message fragment,
     session_status s session = Some Open ->
     delta_text message = Some fragment ->
     transcribedText (ui (step (ServerMessage session message) s')) =
     (transcribedText (ui s) ++ fragment)%string) /\
  (forall events,
     forallb (fun e => negb (is_record_click e)) events = true ->
     transcribedText (ui (run events s')) =
     (transcribedText (ui s) ++ join (deltas_received events s'))%string).
Proof.
  intros s'.
  assert (Hs : sessions (browser s') = sessions (browser s)).
  { unfold s'. rewrite stopRecording_exec. destruct (isRecording render); reflexivity. }
  assert (Ht : transcribedText (ui s') = transcribedText (ui s)).
  { unfold s'. rewrite stopRecording_exec. destruct (isRecording render); reflexivity. }
  repeat split; try assumption.
  - intros H. unfold s'. rewrite stopRecording_exec, H. reflexivity.
  - intros session message fragment Hopen Hdelta.
    rewrite step_transcribedText. cbn.
    unfold session_status in *. rewrite Hs, Hopen, Hdelta, Ht. cbn.
    rewrite append_empty_r. reflexivity.
  - intros events Hall. rewrite (run_transcribedText events s' Hall), Ht. reflexivity.
Qed.

(** A delta arrives on the open session after the stop. *)
Lemma stop_leaves_session_listening_witness :
  let s := run [ClickRecord env_granted; ConnectResolved 0; ServerMessage 0 (delta "an")]
               (initial false) in
  let s' := exec (stopRecording (ui s)) s in
  isRecording (ui s) = true /\
  session_status s 0 = Some Open /\
  delta_text (delta "nyeong") = Some "nyeong" /\
  sessionPromiseRef (refs s') = None /\
  session_status s' 0 = Some Open /\
  transcribedText (ui (step (ServerMessage 0 (delta "nyeong")) s')) = "annyeong".
Proof.
  cbn zeta. do 3 (split; [reflexivity|]).
  destruct (stop_leaves_session_listening
              (ui (run [ClickRecord env_granted; ConnectResolved 0;
                        ServerMessage 0 (delta "an")] (initial false)))
              (run [ClickRecord env_granted; ConnectResolved 0;
                    ServerMessage 0 (delta "an")] (initial false)))
    as (_ & _ & Href & Hdelta & _).
  split; [exact (Href eq_refl)|]. split; [reflexivity|].
  exact (Hdelta 0 (delta "nyeong") "nyeong" eq_refl eq_refl).
Defined.

(** ** PCM frames *)

Section PCM.
Local Open Scope Z_scope.

Lemma ToInt16_wrap (m e : Z) : ToInt16 (Dyadic m e) = wrap16 (truncate m e).
Proof.
  unfold ToInt16, wrap16. generalize (truncate m e). intros n.
  destruct (32768 <=? n mod 65536) eqn:E;
    [apply Z.leb_le in E | apply Z.leb_gt in E]; Z.div_mod_to_equations; lia.
Qed.

Lemma ToInt16_range (x : Number) : -32768 <= ToInt16 x < 32768.
Proof.
  destruct x as [| |m e]; cbn [ToInt16]; try lia.
  generalize (truncate m e). intros n.
  destruct (32768 <=? n mod 65536) eqn:E;
    [apply Z.leb_le in E | apply Z.leb_gt in E]; Z.div_mod_to_equations; lia.
Qed.

Lemma wrap16_in_range (n : Z) : -32768 <= n < 32768 -> wrap16 n = n.
Proof. unfold wrap16. intros H. Z.div_mod_to_equations. lia. Qed.

(** The integral part of [m * 2^e * 32768]: for [e < 0], the usual case
    of a sample, that of the fraction [m * 32768 / 2^(-e)]. *)
Lemma truncate_times32768 (m e : Z) :
  truncate m (e + 15) =
  if 0 <=? e then m * 2 ^ e * 32768 else Z.quot (m * 32768) (2 ^ (- e)).
Proof.
  unfold truncate.
  destruct (0 <=? e) eqn:He; [apply Z.leb_le in He | apply Z.leb_gt in He].
  - replace (0 <=? e + 15) with true by (symmetry; apply Z.leb_le; lia).
    rewrite Z.pow_add_r by lia. change (2 ^ 15) with 32768. ring.
  - destruct (0 <=? e + 15) eqn:He'; [apply Z.leb_le in He' | apply Z.leb_gt in He'].
    + replace 32768 with (2 ^ (e + 15) * 2 ^ (- e)).
      * rewrite Z.mul_assoc. rewrite Z.quot_mul; [reflexivity|].
        apply Z.pow_nonzero; lia.
      * rewrite <- Z.pow_add_r by lia. replace (e + 15 + - e) with 15 by lia. reflexivity.
    + replace (2 ^ (- e)) with (2 ^ (- (e + 15)) * 32768).
      * rewrite Z.quot_mul_cancel_r; [reflexivity| |lia].
        apply Z.pow_nonzero; lia.
      * change 32768 with (2 ^ 15). rewrite <- Z.pow_add_r by lia.
        f_equal. lia.
Qed.

Lemma int16_bytes_decode (v : Z) :
  -32768 <= v < 32768 ->
  exists lo hi, int16_bytes v = [lo; hi] /\
    0 <= lo < 256 /\ 0 <= hi < 256 /\ int16_of_bytes lo hi = v.
Proof.
  intros Hv. unfold int16_bytes. cbn zeta.
  exists (v mod 65536 mod 256), (v mod 65536 / 256).
  split; [reflexivity|]. unfold int16_of_bytes.
  destruct (32768 <=? v mod 65536 mod 256 + 256 * (v mod 65536 / 256)) eqn:E;
    [apply Z.leb_le in E | apply Z.leb_gt in E];
    Z.div_mod_to_equations; lia.
Qed.

Example sample_conversions :
  float32_to_int16
    [Dyadic 1 (-1); Dyadic (-1) (-1); Dyadic 1 0; Dyadic (-1) 0; Dyadic 3 (-1);
     Dyadic 5 (-17); Dyadic (-3) (-17); NaN; Infinity false] =
  [16384; -16384; -32768; -32768; -16384; 1; 0; 0; 0].
Proof. reflexivity. Qed.

End PCM.

Lemma length_Uint8Array_of_buffer (int16 : list Z) :
  length (Uint8Array_of_buffer int16) = 2 * length int16.
Proof.
  unfold Uint8Array_of_buffer. induction int16 as [|v l IH]; [reflexivity|].
  cbn [flat_map length app int16_bytes]. cbn. rewrite IH. lia.
Qed.

Lemma lookup_Uint8Array_of_buffer (int16 : list Z) (i : nat) (v lo hi : Z) :
  int16 !! i = Some v ->
  int16_bytes v = [lo; hi] ->
  Uint8Array_of_buffer int16 !! (2 * i) = Some lo /\
  Uint8Array_of_buffer int16 !! (2 * i + 1) = Some hi.
Proof.
  revert i. unfold Uint8Array_of_buffer.
  induction int16 as [|w l IH]; intros i Hi Hb; [discriminate|].
  destruct i as [|i].
  - cbn in Hi. injection Hi as ->. cbn [flat_map]. rewrite Hb. split; reflexivity.
  - cbn in Hi. destruct (IH i Hi Hb) as [H1 H2].
    replace (2 * S i) with (S (S (2 * i))) by lia.
    replace (S (S (2 * i)) + 1) with (S (S (2 * i + 1))) by lia.
    cbn [flat_map]. unfold int16_bytes at 1 3. cbn. auto.
Qed.

(** C7: for a buffer of 4096 samples the payload handed to [encode] has
    exactly 8192 bytes; the two bytes of sample [i], low byte first, are
    the 16-bit two's complement of [ToInt16 (sample * 32768)], which for a
    finite sample is the integral part of the product reduced into the
    signed 16-bit range by wrap-around: a product inside the range is
    kept, one outside is not clamped (32768, the product of the sample
    1.0, becomes -32768). *)
Theorem frame_payload_8192_bytes (inputData : list Number) :
  length inputData = 4096 ->
  let payload := Uint8Array_of_buffer (float32_to_int16 inputData) in
  length payload = 8192 /\
  data (frame_message inputData) = encode payload /\
  (forall (i : nat) (x : Number),
     inputData !! i = Some x ->
     exists lo hi : Z,
       payload !! (2 * i) = Some lo /\ payload !! (2 * i + 1) = Some hi /\
       (0 <= lo < 256)%Z /\ (0 <= hi < 256)%Z /\
       int16_of_bytes lo hi = ToInt16 (times32768 x) /\
       match x with
       | Dyadic m e =>
           ToInt16 (times32768 x) =
           wrap16 (if (0 <=? e)%Z then m * 2 ^ e * 32768
                   else Z.quot (m * 32768) (2 ^ (- e)))%Z
       | _ => ToInt16 (times32768 x) = 0%Z
       end) /\
  (forall n : Z, (-32768 <= n < 32768)%Z -> wrap16 n = n) /\
  wrap16 32768 = (-32768)%Z.
Proof.
  intros Hlen payload. split; [|split; [reflexivity|split; [|split]]].
  - unfold payload. rewrite length_Uint8Array_of_buffer.
    unfold float32_to_int16. rewrite length_map, Hlen. reflexivity.
  - intros i x Hx.
    destruct (int16_bytes_decode (ToInt16 (times32768 x)) (ToInt16_range _))
      as (lo & hi & Hb & Hlo & Hhi & Hdec).
    assert (Hi : float32_to_int16 inputData !! i = Some (ToInt16 (times32768 x))).
    { unfold float32_to_int16. rewrite lookup_map, Hx. reflexivity. }
    destruct (lookup_Uint8Array_of_buffer _ i _ lo hi Hi Hb) as [H1 H2].
    exists lo, hi. repeat split; try assumption; try apply Hlo; try apply Hhi.
    destruct x as [| |m e]; try reflexivity.
    cbn [times32768]. rewrite ToInt16_wrap, truncate_times32768. reflexivity.
  - apply wrap16_in_range.
  - reflexivity.
Qed.

(** A buffer of 4096 samples of value 0.5. *)
Lemma frame_payload_8192_bytes_witness :
  let inputData := repeat (Dyadic 1 (-1)) 4096 in
  length inputData = 4096 /\
  length (Uint8Array_of_buffer (float32_to_int16 inputData)) = 8192.
Proof.
  cbn zeta. split; [vm_compute; reflexivity|].
  apply (frame_payload_8192_bytes (repeat (Dyadic 1 (-1)) 4096)).
  vm_compute. reflexivity.
Defined.

(** * Further properties of the component *)

(** ** What the callbacks leave alone *)

(** An event other than a click on the record button changes neither
    the recording flag, nor a ref other than [chunksRef], nor a timer,
    an audio context's state, a wake lock or the request log. *)
Lemma step_keeps_resources (e : Event) (s : State) :
  is_record_click e = false ->
  (isRecording (ui (step e s)) = isRecording (ui s) /\
   isMobile (ui (step e s)) = isMobile (ui s)) /\
  (mediaRecorderRef (refs (step e s)) = mediaRecorderRef (refs s) /\
   timerRef (refs (step e s)) = timerRef (refs s) /\
   audioCtxRef (refs (step e s)) = audioCtxRef (refs s) /\
   wakeLockRef (refs (step e s)) = wakeLockRef (refs s) /\
   sessionPromiseRef (refs (step e s)) = sessionPromiseRef (refs s)) /\
  (timers (browser (step e s)) = timers (browser s) /\
   contexts (browser (step e s)) = contexts (browser s) /\
   wakeLocks (browser (step e s)) = wakeLocks (browser s) /\
   captureRequests (browser (step e s)) = captureRequests (browser s) /\
   alerts (browser (step e s)) = alerts (browser s)).
Proof.
  intros He. destruct e as [| |env| | | | | | | |]; try discriminate He.
  all: clear He; split_state s; handlers; cases; repeat split; reflexivity.
Qed.


Lemma run_app (l1 l2 : list Event) (s : State) :
  run (l1 ++ l2) s = run l2 (run l1 s).
Proof. unfold run. apply fold_left_app. Qed.

Lemma run_keeps_resources (events : list Event) :
  forall s : State,
    forallb no_click events = true ->
    (isRecording (ui (run events s)) = isRecording (ui s) /\
     isMobile (ui (run events s)) = isMobile (ui s)) /\
    (mediaRecorderRef (refs (run events s)) = mediaRecorderRef (refs s) /\
     timerRef (refs (run events s)) = timerRef (refs s) /\
     audioCtxRef (refs (run events s)) = audioCtxRef (refs s) /\
     wakeLockRef (refs (run events s)) = wakeLockRef (refs s) /\
     sessionPromiseRef (refs (run events s)) = sessionPromiseRef (refs s)) /\
    (timers (browser (run events s)) = timers (browser s) /\
     contexts (browser (run events s)) = contexts (browser s) /\
     wakeLocks (browser (run events s)) = wakeLocks (browser s) /\
     captureRequests (browser (run events s)) = captureRequests (browser s) /\
     alerts (browser (run events s)) = alerts (browser s)).
Proof.
  induction events as [|e events IH]; intros s Hall; [cbn; tauto|].
  cbn in Hall. apply andb_true_iff in Hall as [He Hall].
  apply negb_true_iff in He. rewrite run_cons.
  destruct (IH (step e s) Hall)
    as ((-> & ->) & (-> & -> & -> & -> & ->) & (-> & -> & -> & -> & ->)).
  apply step_keeps_resources, He.
Qed.


(** X7. The answer to the wake lock request decides nothing but the wake
    lock: with any other answer the click on the record button leaves
    the same state, wake locks apart. *)
Theorem wake_lock_is_not_fatal (env : StartEnv) (w : WakeLockOutcome) (s : State) :
  forget_wakeLock (step (ClickRecord (with_env_wakeLock w env)) s) =
  forget_wakeLock (step (ClickRecord env) s).
Proof.
  destruct env as [? ? ? ? w0]. unfold with_env_wakeLock. cbn.
  split_state s. destruct w, w0; handlers; cases; reflexivity.
Qed.

(** ** Elapsed time *)

Lemma step_recordingTime (e : Event) (s : State) :
  recordingTime (ui (step e s)) =
  if starts_capture e s then 0 else recordingTime (ui s) + tick_of s e.
Proof.
  destruct e as [| |[? ? ? ? ?]| | | | | | | |].
  all: split_state s; handlers; unfold tick_of; cases; try reflexivity; try lia.
  all: try congruence.
Qed.

Lemma tick_of_timers (s s' : State) (e : Event) :
  timers (browser s') = timers (browser s) -> tick_of s' e = tick_of s e.
Proof. intros H. destruct e; try reflexivity. unfold tick_of. rewrite H. reflexivity. Qed.

Lemma run_recordingTime (events : list Event) :
  forall s : State,
    forallb no_click events = true ->
    recordingTime (ui (run events s)) = recordingTime (ui s) + ticks_delivered s events.
Proof.
  induction events as [|e events IH]; intros s Hall.
  - cbn. lia.
  - cbn in Hall. apply andb_true_iff in Hall as [He Hall]. apply negb_true_iff in He.
    rewrite run_cons, (IH _ Hall), step_recordingTime, (not_click_no_start e s He).
    destruct (step_keeps_resources e s He) as (_ & _ & (Ht & _)).
    change (ticks_delivered s (e :: events))
      with (tick_of s e + ticks_delivered s events).
    unfold ticks_delivered.
    rewrite (map_ext (tick_of (step e s)) (tick_of s))
      by (intros e'; apply tick_of_timers, Ht).
    lia.
Qed.

(** X9. During a recording the elapsed time is the number of ticks its
    interval delivered: it starts at 0 and grows by exactly one per tick.
    In general no event but the start of a granted capture resets it, and
    every other event adds the tick it delivers and nothing else. *)
Theorem elapsed_time_counts_ticks (s0 : State) (env : StartEnv) (events : list Event) :
  isRecording (ui s0) = false ->
  let s1 := step (ClickRecord env) s0 in
  isRecording (ui s1) = true ->
  forallb no_click events = true ->
  recordingTime (ui (run events s1)) = ticks_delivered s1 events /\
  tick_of s1 (TimerFired (length (timers (browser s0)))) = 1 /\
  (forall e s, recordingTime (ui (step e s)) =
     if starts_capture e s then 0 else recordingTime (ui s) + tick_of s e).
Proof.
  intros Hidle s1 Hrec Hall.
  destruct (startRecording_success s0 env Hidle Hrec)
    as ((_ & Htime & _) & _ & _ & _ & (_ & Htimers) & _).
  fold s1 in Htime, Htimers. split; [|split].
  - rewrite (run_recordingTime events s1 Hall), Htime. reflexivity.
  - unfold tick_of. rewrite Htimers, list_lookup_middle by reflexivity.
    destruct (decide (Some true = Some true)); [reflexivity|congruence].
  - apply step_recordingTime.
Qed.

(** Three ticks of the recording's interval among other events. *)
Lemma elapsed_time_counts_ticks_witness :
  let s0 := initial false in
  let s1 := step (ClickRecord env_granted) s0 in
  let events := [TimerFired 0; AudioProcess 0 ramp; TimerFired 0; TimerFired 5;
                 ServerMessage 0 (delta "a"); TimerFired 0] in
  isRecording (ui s0) = false /\
  isRecording (ui s1) = true /\
  forallb no_click events = true /\
  recordingTime (ui (run events s1)) = 3.
Proof.
  cbn zeta. do 3 (split; [reflexivity|]).
  exact (proj1 (elapsed_time_counts_ticks (initial false) env_granted
                  [TimerFired 0; AudioProcess 0 ramp; TimerFired 0; TimerFired 5;
                   ServerMessage 0 (delta "a"); TimerFired 0]
                  eq_refl eq_refl eq_refl)).
Defined.

(** ** Invariants of the component *)














(** ** Stopping a recording *)











(** ** The archived blob *)







(** ** A connection that fails *)

Lemma step_reject (sid : nat) (s : State) (p : LiveSession) :
  sessions (browser s) !! sid = Some p ->
  status p = Connecting ->
  sessions (browser (step (ConnectRejected sid) s)) !! sid =
  Some {| status := Failed; queued := []; wire := wire p |}.
Proof.
  intros Hp Hs. split_state s. handlers. cbn in *.
  rewrite list_lookup_alter_eq, Hp. cbn. rewrite Hs. reflexivity.
Qed.

Lemma step_failed_session (sid : nat) (e : Event) (s : State) (p : LiveSession) :
  is_record_click e = false ->
  sessions (browser s) !! sid = Some p ->
  status p = Failed ->
  sessions (browser (step e s)) !! sid = Some p.
Proof.
  intros He Hp Hs. destruct e as [| |env| | | | | | | |]; try discriminate He; clear He.
  all: split_state s; cbn in Hp; handlers; cases; try assumption.
  all: rewrite list_lookup_alter;
    match goal with |- context [decide (?a = ?b)] => destruct (decide (a = b)) end;
    try assumption; subst; rewrite Hp; cbn; rewrite Hs; reflexivity.
Qed.

Lemma run_failed_session (sid : nat) (events : list Event) (p : LiveSession) :
  forall s : State,
    forallb no_click events = true ->
    sessions (browser s) !! sid = Some p ->
    status p = Failed ->
    sessions (browser (run events s)) !! sid = Some p.
Proof.
  induction events as [|e events IH]; intros s Hall Hp Hs; [exact Hp|].
  cbn in Hall. apply andb_true_iff in Hall as [He Hall]. apply negb_true_iff in He.
  rewrite run_cons. apply IH; try assumption.
  apply step_failed_session; assumption.
Qed.

Lemma during_recording_no_click (sid : nat) (events : list Event) :
  forallb (during_recording sid) events = true -> forallb no_click events = true.
Proof.
  induction events as [|e events IH]; cbn; [auto|].
  intros H. apply andb_true_iff in H as [He H]. rewrite (IH H).
  unfold during_recording, keeps_session in He.
  apply andb_true_iff in He as [He _]. apply andb_true_iff in He as [He _].
  unfold no_click. rewrite He. reflexivity.
Qed.

(** X14. When the connection is rejected, the frames queued so far are
    discarded without a trace and no later frame is sent: the wire of the
    session stays empty for the rest of the recording. Capture goes on
    all the same: the component keeps recording and the clock keeps
    counting. *)
Theorem rejected_connection_drops_frames
    (s0 : State) (env : StartEnv) (pre post : list Event) :
  isRecording (ui s0) = false ->
  let s1 := step (ClickRecord env) s0 in
  let sid := length (sessions (browser s0)) in
  isRecording (ui s1) = true ->
  forallb (during_recording sid) pre = true ->
  forallb no_click post = true ->
  let trace := pre ++ ConnectRejected sid :: post in
  let s := run trace s1 in
  sessions (browser s) !! sid = Some {| status := Failed; queued := []; wire := [] |} /\
  isRecording (ui s) = true /\
  recordingTime (ui s) = ticks_delivered s1 trace.
Proof.
  intros Hidle s1 sid Hrec Hpre Hpost trace s.
  destruct (started_session s0 env Hidle Hrec) as (Href & Hp & Ht).
  fold s1 sid in Href, Hp.
  destruct (during_recording_keeps sid pre Hpre) as [Hkeep Hnores].
  destruct (run_keeps_session sid pre s1 _ Hkeep Href Hp Ht)
    as (p & Hlk & Htp & Hopen & _).
  rewrite Hnores in Hopen. cbn in Hopen.
  destruct (tidy_connecting p Htp Hopen) as (Hs & Hw & _).
  pose proof (step_reject sid (run pre s1) p Hlk Hs) as Hrej. rewrite Hw in Hrej.
  assert (Hall : forallb no_click trace = true).
  { unfold trace. rewrite forallb_app, (during_recording_no_click sid pre Hpre).
    cbn. exact Hpost. }
  split; [|split].
  - unfold s, trace. rewrite run_app, run_cons.
    apply run_failed_session; [exact Hpost|exact Hrej|reflexivity].
  - destruct (run_keeps_resources trace s1 Hall) as ((Hr & _) & _).
    unfold s. rewrite Hr. exact Hrec.
  - destruct (startRecording_success s0 env Hidle Hrec) as ((_ & Htime & _) & _).
    fold s1 in Htime. unfold s. rewrite (run_recordingTime trace s1 Hall), Htime.
    reflexivity.
Qed.

(** Two frames before the rejection, one frame and a tick after it. *)
Lemma rejected_connection_drops_frames_witness :
  let s0 := initial false in
  let s1 := step (ClickRecord env_granted) s0 in
  let pre := [AudioProcess 0 ramp; AudioProcess 0 silence] in
  let post := [AudioProcess 0 ramp; TimerFired 0; ConnectResolved 0] in
  let s := run (pre ++ ConnectRejected 0 :: post) s1 in
  isRecording (ui s0) = false /\
  isRecording (ui s1) = true /\
  forallb (during_recording 0) pre = true /\
  forallb no_click post = true /\
  frames_produced s1 (pre ++ post) = [ramp; silence; ramp] /\
  sessions (browser s) !! 0 = Some {| status := Failed; queued := []; wire := [] |} /\
  recordingTime (ui s) = 1.
Proof.
  cbn zeta. do 5 (split; [reflexivity|]).
  destruct (rejected_connection_drops_frames (initial false) env_granted
              [AudioProcess 0 ramp; AudioProcess 0 silence]
              [AudioProcess 0 ramp; TimerFired 0; ConnectResolved 0]
              eq_refl eq_refl eq_refl eq_refl) as (Hs & _ & Ht).
  split; [exact Hs|exact Ht].
Defined.

(** ** Mobile *)

Lemma step_mobile (e : Event) (s : State) :
  isMobile (ui s) = true ->
  sourceMode (ui s) = mic ->
  isMobile (ui (step e s)) = true /\
  sourceMode (ui (step e s)) = mic /\
  exists l, captureRequests (browser (step e s)) = captureRequests (browser s) ++ l /\
            Forall (eq (capture_request mic)) l.
Proof.
  intros Hm Hs. split_state s. cbn in Hm, Hs. subst.
  destruct e as [| |[? ? ? ? ?]| | | | | | | |]; handlers; cases; repeat split.
  all: first [ exists []; rewrite app_nil_r; split; [reflexivity|constructor]
             | exists [capture_request mic]; split; [reflexivity|repeat constructor] ].
Qed.

Lemma run_mobile (events : list Event) :
  forall s : State,
    isMobile (ui s) = true -> sourceMode (ui s) = mic ->
    Forall (eq (capture_request mic)) (captureRequests (browser s)) ->
    isMobile (ui (run events s)) = true /\
    sourceMode (ui (run events s)) = mic /\
    Forall (eq (capture_request mic)) (captureRequests (browser (run events s))).
Proof.
  induction events as [|e events IH]; intros s Hm Hs Hr; [auto|].
  rewrite run_cons. destruct (step_mobile e s Hm Hs) as (Hm' & Hs' & l & Hl & Hf).
  apply IH; try assumption. rewrite Hl. apply Forall_app. auto.
Qed.

(** ** After the stop *)

(** X15. From the stop until the next click on the record button, a buffer
    delivered by any audio graph that is still running is dropped: the
    promise ref is null, so [onaudioprocess] sends nothing and changes
    nothing. *)
Theorem frames_after_stop_are_dropped
    (render : UI) (s : State) (events : list Event)
    (audioCtx : nat) (inputData : list Number) :
  isRecording render = true ->
  forallb no_click events = true ->
  let s' := run events (exec (stopRecording render) s) in
  sessionPromiseRef (refs s') = None /\
  step (AudioProcess audioCtx inputData) s' = s'.
Proof.
  intros Hrec Hall s'.
  assert (Href : sessionPromiseRef (refs s') = None).
  { unfold s'. destruct (run_keeps_resources events (exec (stopRecording render) s) Hall)
      as (_ & (_ & _ & _ & _ & ->) & _).
    rewrite stopRecording_exec, Hrec. reflexivity. }
  split; [exact Href|].
  cbv [step exec dispatch mbind mret M_bind M_ret gets onaudioprocess skip].
  destruct (ctx_delivers s' audioCtx); cbn; [|reflexivity].
  rewrite Href. reflexivity.
Qed.

(** A start that fails at the recorder leaves its graph running; after
    a later recording is stopped, the buffers that graph still delivers
    go nowhere. *)
Lemma frames_after_stop_are_dropped_witness :
  let s := run [ClickRecord env_without_recorder; ClickRecord env_granted] (initial false) in
  let s' := run [TimerFired 0; ConnectResolved 1] (exec (stopRecording (ui s)) s) in
  isRecording (ui s) = true /\
  forallb no_click [TimerFired 0; ConnectResolved 1] = true /\
  ctx_delivers s' 0 = true /\
  step (AudioProcess 0 ramp) s' = s'.
Proof.
  cbn zeta. do 3 (split; [reflexivity|]).
  exact (proj2 (frames_after_stop_are_dropped
                  (ui (run [ClickRecord env_without_recorder; ClickRecord env_granted]
                           (initial false)))
                  (run [ClickRecord env_without_recorder; ClickRecord env_granted]
                       (initial false))
                  [TimerFired 0; ConnectResolved 1] 0 ramp eq_refl eq_refl)).
Defined.

(** ** Server messages *)



(** ** Callbacks and resources *)

(** X8. Between two clicks on the record button nothing acquires or
    releases a resource: timers, audio contexts, wake locks and the
    request log stay as they are, and so do the recording flag and every
    ref but [chunksRef]. *)
Theorem callbacks_keep_resources (events : list Event) (s : State) :
  forallb no_click events = true ->
  let s' := run events s in
  (isRecording (ui s') = isRecording (ui s) /\ isMobile (ui s') = isMobile (ui s)) /\
  (mediaRecorderRef (refs s') = mediaRecorderRef (refs s) /\
   timerRef (refs s') = timerRef (refs s) /\
   audioCtxRef (refs s') = audioCtxRef (refs s) /\
   wakeLockRef (refs s') = wakeLockRef (refs s) /\
   sessionPromiseRef (refs s') = sessionPromiseRef (refs s)) /\
  (timers (browser s') = timers (browser s) /\
   contexts (browser s') = contexts (browser s) /\
   wakeLocks (browser s') = wakeLocks (browser s) /\
   captureRequests (browser s') = captureRequests (browser s) /\
   alerts (browser s') = alerts (browser s)).
Proof. intros Hall. apply run_keeps_resources, Hall. Qed.

Lemma callbacks_keep_resources_witness :
  let s := step (ClickRecord env_granted) (initial false) in
  let events := [TimerFired 0; AudioProcess 0 ramp; ConnectRejected 0; SessionClosed 0;
                 DataAvailable 0 {| blob_bytes := [1%Z]; blob_type := "" |};
                 RecorderStopped 0; ClickSystem] in
  forallb no_click events = true /\
  isRecording (ui (run events s)) = true /\
  timers (browser (run events s)) = [true] /\
  contexts (browser (run events s)) = [{| ctx_closed := false; ctx_graph := true |}].
Proof.
  cbn zeta. split; [reflexivity|].
  destruct (callbacks_keep_resources
              [TimerFired 0; AudioProcess 0 ramp; ConnectRejected 0; SessionClosed 0;
               DataAvailable 0 {| blob_bytes := [1%Z]; blob_type := "" |};
               RecorderStopped 0; ClickSystem]
              (step (ClickRecord env_granted) (initial false)) eq_refl)
    as ((Hr & _) & _ & (Ht & Hc & _)).
  split; [exact Hr|]. split; [exact Ht|exact Hc].
Defined.

(** ** [encode] *)

Lemma list_ind3 {A : Type} (P : list A -> Prop) :
  P [] -> (forall a, P [a]) -> (forall a b, P [a; b]) ->
  (forall a b c l, P l -> P (a :: b :: c :: l)) ->
  forall l, P l.
Proof.
  intros H0 H1 H2 H3. fix IH 1.
  intros [|a [|b [|c l]]]; [exact H0|apply H1|apply H2|apply H3, IH].
Qed.

Lemma length_string_of_list_ascii (l : list ascii) :
  String.length (string_of_list_ascii l) = length l.
Proof. induction l; cbn; congruence. Qed.

Lemma length_btoa_units (units : list Z) :
  length (btoa_units units) = 4 * ((length units + 2) / 3).
Proof.
  induction units as [|a|a b|a b c l IH] using list_ind3; try reflexivity.
  cbn [btoa_units length]. rewrite IH.
  replace (S (S (S (length l))) + 2) with ((length l + 2) + 1 * 3) by lia.
  rewrite Nat.div_add by lia. lia.
Qed.

(** X1. [encode] produces four characters for every three bytes, the last
    group padded: [4 * ceil(n / 3)] characters for [n] bytes. *)
Theorem encode_length (bytes : list Z) :
  String.length (encode bytes) = 4 * ((length bytes + 2) / 3).
Proof.
  unfold encode, btoa.
  rewrite length_string_of_list_ascii, length_btoa_units, length_map.
  rewrite list_ascii_of_string_of_list_ascii, length_map. reflexivity.
Qed.

Section Base64.
Local Open Scope Z_scope.

Lemma charCode_fromCharCode (b : Z) : is_byte b -> charCode (fromCharCode b) = b.
Proof.
  intros [H0 H1]. unfold charCode, fromCharCode.
  rewrite nat_ascii_embedding by lia. lia.
Qed.

Lemma encode_bytes (bytes : list Z) :
  Forall is_byte bytes -> encode bytes = string_of_list_ascii (btoa_units bytes).
Proof.
  intros H. unfold encode, btoa. rewrite list_ascii_of_string_of_list_ascii.
  do 2 f_equal. induction H as [|b l Hb _ IH]; [reflexivity|].
  cbn [map]. rewrite charCode_fromCharCode, IH by assumption. reflexivity.
Qed.

Lemma base64_digits_checked :
  forallb (fun k => Z.eqb (base64_value (base64_digit (Z.of_nat k))) (Z.of_nat k)
                    && negb (Ascii.eqb (base64_digit (Z.of_nat k)) "="%char)
                    && existsb (Ascii.eqb (base64_digit (Z.of_nat k))) base64_alphabet)
          (seq 0 64) = true.
Proof. vm_compute. reflexivity. Qed.

Lemma base64_digit_spec (n : Z) :
  0 <= n < 64 ->
  base64_value (base64_digit n) = n /\
  Ascii.eqb (base64_digit n) "="%char = false /\
  In (base64_digit n) base64_alphabet.
Proof.
  intros Hn. pose proof base64_digits_checked as H.
  rewrite forallb_forall in H. specialize (H (Z.to_nat n)).
  rewrite Z2Nat.id in H by lia.
  assert (Hin : In (Z.to_nat n) (seq 0 64)) by (apply in_seq; lia).
  specialize (H Hin). apply andb_true_iff in H as [H H3].
  apply andb_true_iff in H as [H1 H2].
  apply Z.eqb_eq in H1. apply negb_true_iff in H2.
  repeat split; try assumption.
  apply existsb_exists in H3 as (c & Hc & Heq). apply Ascii.eqb_eq in Heq.
  rewrite Heq. exact Hc.
Qed.

Ltac digit_range := unfold is_byte in *; Z.div_mod_to_equations; lia.

Lemma atob_btoa_units (units : list Z) :
  Forall is_byte units -> atob_units (btoa_units units) = units.
Proof.
  induction units as [|a|a b|a b c l IH] using list_ind3; intros H.
  - reflexivity.
  - apply Forall_cons_iff in H as [Ha _].
    cbn [btoa_units atob_units]. rewrite Ascii.eqb_refl.
    destruct (base64_digit_spec (a / 4)) as (-> & _); [digit_range|].
    destruct (base64_digit_spec (a mod 4 * 16)) as (-> & _); [digit_range|].
    f_equal. digit_range.
  - apply Forall_cons_iff in H as [Ha H]. apply Forall_cons_iff in H as [Hb _].
    cbn [btoa_units atob_units]. rewrite Ascii.eqb_refl.
    destruct (base64_digit_spec (a / 4)) as (-> & _); [digit_range|].
    destruct (base64_digit_spec (a mod 4 * 16 + b / 16)) as (-> & _); [digit_range|].
    destruct (base64_digit_spec (b mod 16 * 4)) as (-> & -> & _); [digit_range|].
    f_equal; [digit_range|]. f_equal. digit_range.
  - apply Forall_cons_iff in H as [Ha H]. apply Forall_cons_iff in H as [Hb H].
    apply Forall_cons_iff in H as [Hc H].
    cbn [btoa_units atob_units].
    destruct (base64_digit_spec (a / 4)) as (-> & _); [digit_range|].
    destruct (base64_digit_spec (a mod 4 * 16 + b / 16)) as (-> & _); [digit_range|].
    destruct (base64_digit_spec (b mod 16 * 4 + c / 64)) as (-> & -> & _); [digit_range|].
    destruct (base64_digit_spec (c mod 64)) as (-> & -> & _); [digit_range|].
    rewrite (IH H). f_equal; [digit_range|]. f_equal; [digit_range|]. f_equal. digit_range.
Qed.

Lemma digit_is_base64_char (n : Z) : 0 <= n < 64 -> is_base64_char (base64_digit n).
Proof. intros H. left. apply base64_digit_spec, H. Qed.

Lemma pad_is_base64_char : is_base64_char "="%char.
Proof. right. reflexivity. Qed.

Lemma btoa_units_alphabet (units : list Z) :
  Forall is_byte units -> Forall is_base64_char (btoa_units units).
Proof.
  induction units as [|a|a b|a b c l IH] using list_ind3; intros H.
  - constructor.
  - apply Forall_cons_iff in H as [Ha _]. cbn [btoa_units].
    do 2 (constructor; [apply digit_is_base64_char; digit_range|]).
    do 2 (constructor; [apply pad_is_base64_char|]). constructor.
  - apply Forall_cons_iff in H as [Ha H]. apply Forall_cons_iff in H as [Hb _].
    cbn [btoa_units].
    do 3 (constructor; [apply digit_is_base64_char; digit_range|]).
    constructor; [apply pad_is_base64_char|]. constructor.
  - apply Forall_cons_iff in H as [Ha H]. apply Forall_cons_iff in H as [Hb H].
    apply Forall_cons_iff in H as [Hc H]. cbn [btoa_units].
    do 4 (constructor; [apply digit_is_base64_char; digit_range|]).
    apply IH, H.
Qed.

Lemma Uint8Array_is_bytes (int16 : list Z) :
  Forall is_byte (Uint8Array_of_buffer int16).
Proof.
  unfold Uint8Array_of_buffer. induction int16 as [|v l IH]; [constructor|].
  cbn [flat_map int16_bytes app]. cbn zeta.
  constructor; [digit_range|]. constructor; [digit_range|]. exact IH.
Qed.

Lemma Int16Array_of_Uint8Array (int16 : list Z) :
  Forall (fun v => -32768 <= v < 32768) int16 ->
  Int16Array_of_bytes (Uint8Array_of_buffer int16) = int16.
Proof.
  unfold Uint8Array_of_buffer. induction 1 as [|v l Hv _ IH]; [reflexivity|].
  destruct (int16_bytes_decode v Hv) as (lo & hi & Hb & _ & _ & Hdec).
  cbn [flat_map]. rewrite Hb. cbn [app Int16Array_of_bytes]. rewrite Hdec, IH.
  reflexivity.
Qed.

Lemma float32_to_int16_range (inputData : list Number) :
  Forall (fun v => -32768 <= v < 32768) (float32_to_int16 inputData).
Proof.
  unfold float32_to_int16. induction inputData; constructor; auto using ToInt16_range.
Qed.

End Base64.

(** X2. Applied to bytes, [encode] yields only characters of the base64
    alphabet and the padding sign. *)
Theorem encode_alphabet (bytes : list Z) :
  Forall is_byte bytes ->
  Forall is_base64_char (list_ascii_of_string (encode bytes)).
Proof.
  intros H. rewrite (encode_bytes bytes H), list_ascii_of_string_of_list_ascii.
  apply btoa_units_alphabet, H.
Qed.

Lemma encode_alphabet_witness :
  Forall is_byte [0; 127; 128; 255]%Z /\
  Forall is_base64_char (list_ascii_of_string (encode [0; 127; 128; 255]%Z)).
Proof.
  assert (H : Forall is_byte [0; 127; 128; 255]%Z)
    by (repeat constructor; unfold is_byte; lia).
  split; [exact H|exact (encode_alphabet _ H)].
Defined.

(** X3. [encode] loses nothing: two byte sequences with the same encoding
    are the same sequence. *)
Theorem encode_injective (bytes1 bytes2 : list Z) :
  Forall is_byte bytes1 ->
  Forall is_byte bytes2 ->
  encode bytes1 = encode bytes2 ->
  bytes1 = bytes2.
Proof.
  intros H1 H2 He. rewrite (encode_bytes _ H1), (encode_bytes _ H2) in He.
  apply (f_equal list_ascii_of_string) in He.
  rewrite !list_ascii_of_string_of_list_ascii in He.
  apply (f_equal atob_units) in He.
  rewrite (atob_btoa_units _ H1), (atob_btoa_units _ H2) in He. exact He.
Qed.

Lemma encode_injective_witness :
  Forall is_byte [77; 97]%Z /\
  encode [77; 97]%Z = encode [77; 97]%Z /\
  [77; 97]%Z = [77; 97]%Z.
Proof.
  assert (H : Forall is_byte [77; 97]%Z) by (repeat constructor; unfold is_byte; lia).
  split; [exact H|]. split; [reflexivity|].
  exact (encode_injective _ _ H H eq_refl).
Defined.

(** ** Frame messages *)

(** X4. The message built for a buffer of [n] samples carries
    [4 * ceil(2n / 3)] base64 characters, 10924 for the 4096 samples of
    the script processor, all of them from the base64 alphabet or the
    padding sign, under the fixed mime type. *)
Theorem frame_message_is_base64 (inputData : list Number) :
  String.length (data (frame_message inputData)) =
    4 * ((2 * length inputData + 2) / 3) /\
  (length inputData = 4096 ->
   String.length (data (frame_message inputData)) = 10924) /\
  Forall is_base64_char (list_ascii_of_string (data (frame_message inputData))) /\
  mimeType (frame_message inputData) = "audio/pcm;rate=16000".
Proof.
  assert (Hlen : String.length (data (frame_message inputData)) =
                 4 * ((2 * length inputData + 2) / 3)).
  { cbn [frame_message data]. rewrite encode_length, length_Uint8Array_of_buffer.
    unfold float32_to_int16. rewrite length_map. reflexivity. }
  split; [exact Hlen|]. split; [|split; [|reflexivity]].
  - intros H. rewrite Hlen, H. reflexivity.
  - cbn [frame_message data]. apply encode_alphabet, Uint8Array_is_bytes.
Qed.

Lemma frame_message_is_base64_witness :
  let inputData := repeat (Dyadic 1 (-1)) 4096 in
  length inputData = 4096 /\
  String.length (data (frame_message inputData)) = 10924.
Proof.
  cbn zeta. split; [vm_compute; reflexivity|].
  apply (frame_message_is_base64 (repeat (Dyadic 1 (-1)) 4096)).
  vm_compute. reflexivity.
Defined.

(** X5. The samples can be read back from the message: two buffers with
    the same message have the same 16-bit samples, and decoding the
    message's bytes as little-endian 16-bit integers gives exactly the
    converted samples. *)
Theorem frame_message_determines_samples (inputData1 inputData2 : list Number) :
  (frame_message inputData1 = frame_message inputData2 ->
   float32_to_int16 inputData1 = float32_to_int16 inputData2) /\
  Int16Array_of_bytes (Uint8Array_of_buffer (float32_to_int16 inputData1)) =
  float32_to_int16 inputData1.
Proof.
  assert (Hback : forall l, Int16Array_of_bytes (Uint8Array_of_buffer (float32_to_int16 l)) =
                            float32_to_int16 l).
  { intros l. apply Int16Array_of_Uint8Array, float32_to_int16_range. }
  split; [|apply Hback].
  intros He. apply (f_equal data) in He. cbn [frame_message data] in He.
  apply encode_injective in He; try apply Uint8Array_is_bytes.
  rewrite <- (Hback inputData1), <- (Hback inputData2), He. reflexivity.
Qed.

Lemma frame_message_determines_samples_witness :
  frame_message ramp = frame_message ramp /\
  float32_to_int16 ramp = [16384; -32768]%Z.
Proof.
  split; [reflexivity|].
  exact (proj1 (frame_message_determines_samples ramp ramp) eq_refl).
Defined.

(** ** The text download *)

Example trim_examples :
  trim "  an nyeong" = "an nyeong" /\ trim "" = "" /\ trim "a" = "a".
Proof. repeat split; reflexivity. Qed.

Lemma trimStart_blank (s : list ascii) :
  forallb is_space1 s = true -> trimStart s = [].
Proof.
  induction s as [|c s IH]; [reflexivity|]. cbn [forallb trimStart].
  intros H. apply andb_true_iff in H as [-> H]. apply IH, H.
Qed.

Lemma trim_blank (text : string) :
  forallb is_space1 (list_ascii_of_string text) = true -> trim text = "".
Proof. intros H. unfold trim. rewrite (trimStart_blank _ H). reflexivity. Qed.

Lemma eqb_empty (text : string) : String.eqb text "" = true <-> text = "".
Proof. apply String.eqb_eq. Qed.

(** X17. The save button hands out the transcript only from an idle
    component with a transcript that is not empty, and names the file by
    the elapsed time on display; the test for emptiness comes before the
    trimming, so a transcript of blanks and line breaks is saved as an
    empty file. *)
Theorem text_download_guard (s : State) :
  (forall d, click_textButton s = Some d ->
     isRecording (ui s) = false /\ transcribedText (ui s) <> "" /\
     text_content d = trim (transcribedText (ui s)) /\
     text_duration d = recordingTime (ui s)) /\
  (transcribedText (ui s) = "" \/ isRecording (ui s) = true ->
   click_textButton s = None) /\
  (isRecording (ui s) = false ->
   transcribedText (ui s) <> "" ->
   forallb is_space1 (list_ascii_of_string (transcribedText (ui s))) = true ->
   click_textButton s = Some {| text_content := ""; text_duration := recordingTime (ui s) |}).
Proof.
  unfold click_textButton, textButton_disabled, handleDownloadText.
  destruct (String.eqb (transcribedText (ui s)) "") eqn:E; cbn.
  - apply eqb_empty in E. split; [discriminate|]. split; [reflexivity|].
    intros _ Hne. contradiction.
  - assert (Hne : transcribedText (ui s) <> "").
    { intros Hempty. apply eqb_empty in Hempty. congruence. }
    destruct (isRecording (ui s)) eqn:R.
    + split; [discriminate|]. split; [reflexivity|]. discriminate.
    + split; [|split].
      * intros d Hd. injection Hd as <-. auto.
      * intros [Hempty|Hrec]; [contradiction|discriminate].
      * intros _ _ Hb. rewrite (trim_blank _ Hb). reflexivity.
Qed.

Lemma text_download_guard_witness :
  let s := run [ClickRecord env_granted; ConnectResolved 0; ServerMessage 0 (delta " ");
                ClickRecord env_granted] (initial false) in
  isRecording (ui s) = false /\
  transcribedText (ui s) <> "" /\
  forallb is_space1 (list_ascii_of_string (transcribedText (ui s))) = true /\
  click_textButton s = Some {| text_content := ""; text_duration := 0 |}.
Proof.
  cbn zeta. split; [reflexivity|]. split; [discriminate|]. split; [reflexivity|].
  destruct (text_download_guard
              (run [ClickRecord env_granted; ConnectResolved 0; ServerMessage 0 (delta " ");
                    ClickRecord env_granted] (initial false))) as (_ & _ & Hblank).
  apply Hblank; [reflexivity|discriminate|reflexivity].
Defined.

(** X18. Once a recording is stopped, the save button hands out the trimmed
    concatenation of the deltas received during the recording, under a
    name formatted from the number of ticks the recording lasted: the
    text file carries the elapsed time. *)
Theorem text_download_after_recording
    (s0 : State) (env env' : StartEnv) (events : list Event) :
  isRecording (ui s0) = false ->
  let s1 := step (ClickRecord env) s0 in
  isRecording (ui s1) = true ->
  forallb no_click events = true ->
  let s3 := step (ClickRecord env') (run events s1) in
  join (deltas_received events s1) <> "" ->
  click_textButton s3 =
  Some {| text_content := trim (join (deltas_received events s1));
          text_duration := ticks_delivered s1 events |}.
Proof.
  intros Hidle s1 Hrec Hall s3 Hne.
  destruct (startRecording_success s0 env Hidle Hrec) as ((Htxt & Htime & _) & _).
  fold s1 in Htxt, Htime.
  pose proof (run_transcribedText events s1 Hall) as Ht. rewrite Htxt in Ht. cbn in Ht.
  pose proof (run_recordingTime events s1 Hall) as Hn. rewrite Htime in Hn. cbn in Hn.
  destruct (run_keeps_resources events s1 Hall) as ((Hr & _) & _). rewrite Hrec in Hr.
  unfold s3. rewrite (click_while_recording env' _ Hr).
  unfold click_textButton, textButton_disabled, handleDownloadText. cbn.
  rewrite Ht, Hn.
  destruct (String.eqb (join (deltas_received events s1)) "") eqn:E.
  - apply String.eqb_eq in E. contradiction.
  - reflexivity.
Qed.

Lemma text_download_after_recording_witness :
  let s0 := initial false in
  let s1 := step (ClickRecord env_granted) s0 in
  let events := [ConnectResolved 0; TimerFired 0; ServerMessage 0 (delta " an");
                 TimerFired 0; ServerMessage 0 (delta "nyeong ")] in
  isRecording (ui s0) = false /\
  isRecording (ui s1) = true /\
  forallb no_click events = true /\
  join (deltas_received events s1) <> "" /\
  click_textButton (step (ClickRecord env_granted) (run events s1)) =
  Some {| text_content := "annyeong"; text_duration := 2 |}.
Proof.
  cbn zeta. do 3 (split; [reflexivity|]). split; [discriminate|].
  apply (text_download_after_recording (initial false) env_granted env_granted
           [ConnectResolved 0; TimerFired 0; ServerMessage 0 (delta " an");
            TimerFired 0; ServerMessage 0 (delta "nyeong ")]);
    [reflexivity|reflexivity|reflexivity|discriminate].
Defined.

(** ** Mobile detection *)

Lemma prefix_ci_spec (pattern text : list ascii) :
  prefix_ci pattern text = true <->
  exists word rest, text = word ++ rest /\ map upper word = map upper pattern.
Proof.
  revert text. induction pattern as [|p pattern IH]; intros text; cbn.
  - split; [|reflexivity]. intros _. exists [], text. auto.
  - destruct text as [|t text].
    + split; [discriminate|]. intros (word & rest & Ht & Hw).
      destruct word; [discriminate Hw|discriminate Ht].
    + rewrite andb_true_iff, Ascii.eqb_eq, IH. split.
      * intros (Hp & word & rest & -> & Hw). exists (t :: word), rest.
        cbn. rewrite Hw, Hp. auto.
      * intros (word & rest & Ht & Hw). destruct word as [|w word]; [discriminate Hw|].
        cbn in Ht, Hw. injection Ht as -> ->. injection Hw as Hu Hw.
        split; [congruence|]. exists word, rest. auto.
Qed.

Lemma search_ci_spec (pattern text : list ascii) :
  search_ci pattern text = true <->
  exists before word rest,
    text = before ++ word ++ rest /\ map upper word = map upper pattern.
Proof.
  induction text as [|t text IH]; cbn [search_ci]; rewrite orb_true_iff, prefix_ci_spec.
  - split.
    + intros [(word & rest & Ht & Hw)|H]; [|discriminate]. exists [], word, rest. auto.
    + intros (before & word & rest & Ht & Hw). left.
      destruct before; [|discriminate Ht]. exists word, rest. auto.
  - rewrite IH. split.
    + intros [(word & rest & Ht & Hw)|(before & word & rest & Ht & Hw)].
      * exists [], word, rest. auto.
      * exists (t :: before), word, rest. cbn. rewrite Ht. auto.
    + intros (before & word & rest & Ht & Hw). destruct before as [|b before].
      * left. exists word, rest. auto.
      * right. cbn in Ht. injection Ht as -> ->. exists before, word, rest. auto.
Qed.

(** X19. The mount effect sets [isMobile] exactly when the user agent
    contains one of the words iPhone, iPad, iPod or Android, in any
    letter case. *)
Theorem mobile_test_spec (userAgent : string) :
  mobile_test userAgent = true <->
  exists before word rest,
    list_ascii_of_string userAgent = before ++ word ++ rest /\
    In (map upper word)
       (map (fun w => map upper (list_ascii_of_string w))
            ["iPhone"; "iPad"; "iPod"; "Android"]).
Proof.
  unfold mobile_test. cbn zeta. rewrite !orb_true_iff, !search_ci_spec. split.
  - intros [[[H|H]|H]|H]; destruct H as (before & word & rest & Ht & Hw);
      exists before, word, rest; (split; [exact Ht|]); rewrite Hw; cbn; auto.
  - intros (before & word & rest & Ht & Hin). cbn [map In] in Hin.
    destruct Hin as [H|[H|[H|[H|[]]]]].
    + left. left. left. exists before, word, rest. auto.
    + left. left. right. exists before, word, rest. auto.
    + left. right. exists before, word, rest. auto.
    + right. exists before, word, rest. auto.
Qed.

(** An iPad, written in small letters inside a longer user agent. *)
Lemma mobile_test_spec_witness :
  (exists before word rest,
     list_ascii_of_string "Mozilla (ipad; CPU OS 17) Safari" = before ++ word ++ rest /\
     In (map upper word)
        (map (fun w => map upper (list_ascii_of_string w))
             ["iPhone"; "iPad"; "iPod"; "Android"])) /\
  mobile_test "Mozilla (ipad; CPU OS 17) Safari" = true.
Proof.
  assert (H : exists before word rest,
     list_ascii_of_string "Mozilla (ipad; CPU OS 17) Safari" = before ++ word ++ rest /\
     In (map upper word)
        (map (fun w => map upper (list_ascii_of_string w))
             ["iPhone"; "iPad"; "iPod"; "Android"])).
  { exists (list_ascii_of_string "Mozilla ("), (list_ascii_of_string "ipad"),
           (list_ascii_of_string "; CPU OS 17) Safari").
    split; [reflexivity|]. right. left. reflexivity. }
  split; [exact H|]. apply (proj2 (mobile_test_spec _)). exact H.
Defined.

(** X20. In a component mounted under a mobile user agent the system button
    is not rendered: the source mode is [mic] in every state it reaches
    and every capture request it ever issues is the audio-only
    [getUserMedia] request; the display capture is never asked for. *)
Theorem mobile_never_captures_display (userAgent : string) (events : list Event) :
  mobile_test userAgent = true ->
  let s := run events (mounted userAgent) in
  isMobile (ui s) = true /\
  sourceMode (ui s) = mic /\
  Forall (fun req => req = capture_request mic /\ api req = getUserMedia)
         (captureRequests (browser s)).
Proof.
  intros Hm. cbn zeta. unfold mounted. rewrite Hm.
  destruct (run_mobile events (initial true) eq_refl eq_refl ltac:(constructor))
    as (Hmob & Hs & Hr).
  repeat split; try assumption.
  eapply Forall_impl; [exact Hr|]. intros req <-. split; reflexivity.
Qed.

(** An Android browser: the clicks on the system button are lost. *)
Lemma mobile_never_captures_display_witness :
  let userAgent := "Mozilla/5 (Linux; ANDROID 14) Mobile Safari" in
  let s := run [ClickSystem; ClickRecord env_granted; ClickRecord env_granted;
                ClickSystem; ClickRecord env_denied] (mounted userAgent) in
  mobile_test userAgent = true /\
  sourceMode (ui s) = mic /\
  captureRequests (browser s) = [capture_request mic; capture_request mic].
Proof.
  cbn zeta. split; [reflexivity|].
  destruct (mobile_never_captures_display
              "Mozilla/5 (Linux; ANDROID 14) Mobile Safari"
              [ClickSystem; ClickRecord env_granted; ClickRecord env_granted;
               ClickSystem; ClickRecord env_denied] eq_refl) as (_ & Hs & _).
  split; [exact Hs|reflexivity].
Defined.

(** ** Sessions are never closed *)

Lemma step_session_open (sid : nat) (e : Event) (s : State) :
  closes sid e = false ->
  session_status s sid = Some Open ->
  session_status (step e s) sid = Some Open.
Proof.
  unfold session_status. intros He Hs.
  destruct (sessions (browser s) !! sid) as [p|] eqn:Hp; [|discriminate].
  cbn in Hs. injection Hs as Hs.
  destruct e as [| |[? ? ? ? ?]| | |x|x|x| | |].
  8: assert (x <> sid) by
      (cbn in He; destruct (Nat.eqb_spec x sid); [discriminate|assumption]).
  all: clear He; split_state s; cbn in Hp; handlers; cases;
    rewrite ?Hp; cbn; rewrite ?Hs; try reflexivity.
  all: try (rewrite (lookup_app_l_Some _ _ _ _ Hp); cbn; rewrite Hs; reflexivity).
  all: rewrite list_lookup_alter;
    match goal with |- context [decide (?a = ?b)] => destruct (decide (a = b)) end;
    try contradiction; subst; rewrite ?Hp; cbn; rewrite ?Hs; cbn; rewrite ?Hs; reflexivity.
Qed.

(** X21. The component never closes a session: whatever happens next,
    stops and further recordings included, a session that is open stays
    open until the service closes it. *)
Theorem session_is_never_closed (sid : nat) (events : list Event) (s : State) :
  session_status s sid = Some Open ->
  forallb (fun e => negb (closes sid e)) events = true ->
  session_status (run events s) sid = Some Open.
Proof.
  revert s. induction events as [|e events IH]; intros s Hs Hall; [exact Hs|].
  cbn in Hall. apply andb_true_iff in Hall as [He Hall]. apply negb_true_iff in He.
  rewrite run_cons. apply IH; [|exact Hall]. apply step_session_open; assumption.
Qed.

(** The session of a first recording, across its stop and a whole
    second recording. *)
Lemma session_is_never_closed_witness :
  let s := run [ClickRecord env_granted; ConnectResolved 0] (initial false) in
  let events := [ClickRecord env_granted; RecorderStopped 0; ClickRecord env_granted;
                 ConnectResolved 1; AudioProcess 1 ramp; ClickRecord env_granted;
                 RecorderStopped 1; SessionClosed 1] in
  session_status s 0 = Some Open /\
  forallb (fun e => negb (closes 0 e)) events = true /\
  session_status (run events s) 0 = Some Open.
Proof.
  cbn zeta. do 2 (split; [reflexivity|]).
  exact (session_is_never_closed 0
           [ClickRecord env_granted; RecorderStopped 0; ClickRecord env_granted;
            ConnectResolved 1; AudioProcess 1 ramp; ClickRecord env_granted;
            RecorderStopped 1; SessionClosed 1]
           (run [ClickRecord env_granted; ConnectResolved 0] (initial false))
           eq_refl eq_refl).
Defined.
